(** * image-cropper-vue: the detection session of [src/App.vue]

    A shallow embedding of the [<script setup>] block of [App.vue]: the
    reactive refs become the fields of one record, every handler becomes
    a function on that record, the watchers are run after each handler,
    and the single suspending call ([fetch] and the reading of its body)
    splits [runDetection] into the part before the [await] and the part
    after it.

    Conventions.
    - The numbers of the session ([Js.number]) are exact rationals
      extended with the two infinities and NaN, without the rounding of
      binary64 and the sign of zero.  The overlay is also given over an
      arbitrary arithmetic ([overlay]), with binary64 ([Binary64.arith])
      as the one of the language.
    - A template literal [`${v}px`] is kept as the number [v] under a
      constructor instead of its decimal text.
    - [localStorage] holds what the component itself writes there: a
      string under [serviceDomain] and an array of strings under
      [domainList].  The script is given twice: with every [setItem]
      accepted, and ([Quota]) with the fate of each write as an
      argument; the first is the second with the writes accepted. *)

From Stdlib Require Import QArith Qcanon ZArith Lia Ascii String.
From Stdlib Require PrimFloat Uint63.
From stdpp Require Import base list strings numbers pretty.

Local Open Scope string_scope.

(** ** JavaScript values *)

Module Js.

(** Numbers: [x - y], [x * y] and [x / y] with the special cases of the
    language (division by zero, products with an infinity). *)
Inductive number :=
| Finite (q : Qc)
| Infinity (negative : bool)
| NaN.

#[global] Instance number_eq_dec : EqDecision number.
Proof. solve_decision. Defined.

Definition of_Z (z : Z) : number := Finite (Qc_of_Z z).
Definition of_N (n : N) : number := Finite (Qc_of_Z (Z.of_N n)).
Definition of_nat (n : nat) : number := Finite (Qc_of_Z (Z.of_nat n)).

(** The sign of a number, [None] for NaN and for zero. *)
Definition sign (x : number) : option bool :=
  match x with
  | Finite q =>
      if decide (q = 0%Qc) then None
      else if decide (0 < q)%Qc then Some false else Some true
  | Infinity s => Some s
  | NaN => None
  end.

Definition sub (x y : number) : number :=
  match x, y with
  | Finite a, Finite b => Finite (a - b)%Qc
  | Finite _, Infinity s => Infinity (negb s)
  | Infinity s, Finite _ => Infinity s
  | Infinity s, Infinity t => if decide (s = t) then NaN else Infinity s
  | _, _ => NaN
  end.

Definition mul (x y : number) : number :=
  match x, y with
  | Finite a, Finite b => Finite (a * b)%Qc
  | NaN, _ | _, NaN => NaN
  | _, _ =>
      match sign x, sign y with
      | Some s, Some t => Infinity (xorb s t)
      | _, _ => NaN
      end
  end.

(** A zero divisor is the positive zero: the divisors of this program
    are [naturalWidth] and [naturalHeight], unsigned integers. *)
Definition div (x y : number) : number :=
  match x, y with
  | NaN, _ | _, NaN => NaN
  | Infinity _, Infinity _ => NaN
  | Infinity s, Finite b =>
      if decide (b < 0)%Qc then Infinity (negb s) else Infinity s
  | Finite a, Infinity _ => Finite 0%Qc
  | Finite a, Finite b =>
      if decide (b = 0%Qc) then
        match sign x with Some s => Infinity s | None => NaN end
      else Finite (a / b)%Qc
  end.

(** What [JSON.parse] can produce.  An object keeps its members in the
    order of the text; a repeated key reads as its last occurrence. *)
#[local] Unset Elimination Schemes.
Inductive json :=
| JNull
| JBool (b : bool)
| JNum (n : number)
| JStr (s : string)
| JArr (items : list json)
| JObj (members : list (string * json)).

#[local] Set Elimination Schemes.

(** What reading a property can produce. *)
Inductive value :=
| Undefined
| Json (j : json).

Definition of_option (o : option json) : value :=
  match o with Some j => Json j | None => Undefined end.

Fixpoint own_property (key : string) (members : list (string * json)) : option json :=
  match members with
  | [] => None
  | (k, v) :: rest =>
      match own_property key rest with
      | Some later => Some later
      | None => if decide (k = key) then Some v else None
      end
  end.

(** An exception: only its [message] is ever read. *)
Record exn := Error { message : string }.

(** [data[0]].  Reading a property of [null] throws a TypeError whose
    text depends on the engine; the one of V8 stands for it.  A string
    is indexed by character. *)
Definition TYPE_ERROR_NULL : exn :=
  Error "Cannot read properties of null (reading '0')".

Definition index0 (data : json) : exn + value :=
  match data with
  | JNull => inl TYPE_ERROR_NULL
  | JBool _ | JNum _ => inr Undefined
  | JStr (String c _) => inr (Json (JStr (String c EmptyString)))
  | JStr EmptyString => inr Undefined
  | JArr items => inr (of_option (head items))
  | JObj members => inr (of_option (own_property "0" members))
  end.

(** [data.length], for a [data] that is not [null]; the length of a
    string is only ever compared with zero. *)
Definition length_of (data : json) : value :=
  match data with
  | JNull | JBool _ | JNum _ => Undefined
  | JStr s => Json (JNum (of_nat (String.length s)))
  | JArr items => Json (JNum (of_nat (length items)))
  | JObj members => of_option (own_property "length" members)
  end.

(** [v === 0]. *)
Definition strict_eq_zero (v : value) : bool :=
  match v with
  | Json (JNum (Finite q)) => bool_decide (q = 0%Qc)
  | _ => false
  end.

End Js.

Import Js.

(** ** The browser objects the script touches *)

(** A picked file: its name and its bytes. *)
Record File := { file_name : string; file_bytes : string }.

(** The [<img>] element behind both [imagePreview] (the template ref)
    and [originalImage] (the target of its [load] event). *)
Record ImageElement := {
  clientWidth : Z;
  clientHeight : Z;
  naturalWidth : N;
  naturalHeight : N
}.

(** The two keys of [localStorage] the component uses; [None] is a key
    that was never written ([getItem] returns [null]). *)
Record Storage := {
  item_serviceDomain : option string;
  item_domainList : option (list string)
}.

(** [POST `${serviceDomain}/crop?threshold=${threshold}`] with the file
    as the [file] field of the form: the two values interpolated in the
    URL, and the file. *)
Record Request := {
  req_domain : string;
  req_threshold : number;
  req_file : File
}.

(** A promise of the body, settled: [response.text()], [response.json()]. *)
Inductive settled (A : Type) :=
| Resolved (a : A)
| Rejected (e : exn).
Arguments Resolved {A} a.
Arguments Rejected {A} e.

Record Response := {
  status : N;
  statusText : string;
  text : settled string;
  json_body : settled json
}.

(** [response.ok]: the status is in the range 200-299. *)
Definition ok (r : Response) : bool :=
  bool_decide (200 <= status r)%N && bool_decide (status r <= 299)%N.

(** The promise of [fetch], settled. *)
Inductive FetchResult :=
| FetchRejected (e : exn)
| FetchResolved (r : Response).

(** ** The session: the refs of the component, the storage, and a log

    [network] lists every request handed to [fetch], oldest first,
    [pending] counts those not settled yet, and [invocations] counts
    the calls of [runDetection]. *)

Record World := {
  file : option File;
  threshold : number;
  imageUrl : string;
  results : value;
  isLoading : bool;
  error : string;
  originalImage : option ImageElement;
  imagePreview : option ImageElement;
  serviceDomain : string;
  domainList : list string;
  localStorage : Storage;
  network : list Request;
  pending : nat;
  invocations : nat
}.

Definition set_file (v : option File) (w : World) : World :=
  {| file := v;
     threshold := threshold w;
     imageUrl := imageUrl w;
     results := results w;
     isLoading := isLoading w;
     error := error w;
     originalImage := originalImage w;
     imagePreview := imagePreview w;
     serviceDomain := serviceDomain w;
     domainList := domainList w;
     localStorage := localStorage w;
     network := network w;
     pending := pending w;
     invocations := invocations w |}.

Definition set_threshold (v : number) (w : World) : World :=
  {| file := file w;
     threshold := v;
     imageUrl := imageUrl w;
     results := results w;
     isLoading := isLoading w;
     error := error w;
     originalImage := originalImage w;
     imagePreview := imagePreview w;
     serviceDomain := serviceDomain w;
     domainList := domainList w;
     localStorage := localStorage w;
     network := network w;
     pending := pending w;
     invocations := invocations w |}.

Definition set_imageUrl (v : string) (w : World) : World :=
  {| file := file w;
     threshold := threshold w;
     imageUrl := v;
     results := results w;
     isLoading := isLoading w;
     error := error w;
     originalImage := originalImage w;
     imagePreview := imagePreview w;
     serviceDomain := serviceDomain w;
     domainList := domainList w;
     localStorage := localStorage w;
     network := network w;
     pending := pending w;
     invocations := invocations w |}.

Definition set_results (v : value) (w : World) : World :=
  {| file := file w;
     threshold := threshold w;
     imageUrl := imageUrl w;
     results := v;
     isLoading := isLoading w;
     error := error w;
     originalImage := originalImage w;
     imagePreview := imagePreview w;
     serviceDomain := serviceDomain w;
     domainList := domainList w;
     localStorage := localStorage w;
     network := network w;
     pending := pending w;
     invocations := invocations w |}.

Definition set_isLoading (v : bool) (w : World) : World :=
  {| file := file w;
     threshold := threshold w;
     imageUrl := imageUrl w;
     results := results w;
     isLoading := v;
     error := error w;
     originalImage := originalImage w;
     imagePreview := imagePreview w;
     serviceDomain := serviceDomain w;
     domainList := domainList w;
     localStorage := localStorage w;
     network := network w;
     pending := pending w;
     invocations := invocations w |}.

Definition set_error (v : string) (w : World) : World :=
  {| file := file w;
     threshold := threshold w;
     imageUrl := imageUrl w;
     results := results w;
     isLoading := isLoading w;
     error := v;
     originalImage := originalImage w;
     imagePreview := imagePreview w;
     serviceDomain := serviceDomain w;
     domainList := domainList w;
     localStorage := localStorage w;
     network := network w;
     pending := pending w;
     invocations := invocations w |}.

Definition set_originalImage (v : option ImageElement) (w : World) : World :=
  {| file := file w;
     threshold := threshold w;
     imageUrl := imageUrl w;
     results := results w;
     isLoading := isLoading w;
     error := error w;
     originalImage := v;
     imagePreview := imagePreview w;
     serviceDomain := serviceDomain w;
     domainList := domainList w;
     localStorage := localStorage w;
     network := network w;
     pending := pending w;
     invocations := invocations w |}.

Definition set_imagePreview (v : option ImageElement) (w : World) : World :=
  {| file := file w;
     threshold := threshold w;
     imageUrl := imageUrl w;
     results := results w;
     isLoading := isLoading w;
     error := error w;
     originalImage := originalImage w;
     imagePreview := v;
     serviceDomain := serviceDomain w;
     domainList := domainList w;
     localStorage := localStorage w;
     network := network w;
     pending := pending w;
     invocations := invocations w |}.

Definition set_serviceDomain (v : string) (w : World) : World :=
  {| file := file w;
     threshold := threshold w;
     imageUrl := imageUrl w;
     results := results w;
     isLoading := isLoading w;
     error := error w;
     originalImage := originalImage w;
     imagePreview := imagePreview w;
     serviceDomain := v;
     domainList := domainList w;
     localStorage := localStorage w;
     network := network w;
     pending := pending w;
     invocations := invocations w |}.

Definition set_domainList (v : list string) (w : World) : World :=
  {| file := file w;
     threshold := threshold w;
     imageUrl := imageUrl w;
     results := results w;
     isLoading := isLoading w;
     error := error w;
     originalImage := originalImage w;
     imagePreview := imagePreview w;
     serviceDomain := serviceDomain w;
     domainList := v;
     localStorage := localStorage w;
     network := network w;
     pending := pending w;
     invocations := invocations w |}.

Definition set_localStorage (v : Storage) (w : World) : World :=
  {| file := file w;
     threshold := threshold w;
     imageUrl := imageUrl w;
     results := results w;
     isLoading := isLoading w;
     error := error w;
     originalImage := originalImage w;
     imagePreview := imagePreview w;
     serviceDomain := serviceDomain w;
     domainList := domainList w;
     localStorage := v;
     network := network w;
     pending := pending w;
     invocations := invocations w |}.

Definition set_network (v : list Request) (w : World) : World :=
  {| file := file w;
     threshold := threshold w;
     imageUrl := imageUrl w;
     results := results w;
     isLoading := isLoading w;
     error := error w;
     originalImage := originalImage w;
     imagePreview := imagePreview w;
     serviceDomain := serviceDomain w;
     domainList := domainList w;
     localStorage := localStorage w;
     network := v;
     pending := pending w;
     invocations := invocations w |}.

Definition set_pending (v : nat) (w : World) : World :=
  {| file := file w;
     threshold := threshold w;
     imageUrl := imageUrl w;
     results := results w;
     isLoading := isLoading w;
     error := error w;
     originalImage := originalImage w;
     imagePreview := imagePreview w;
     serviceDomain := serviceDomain w;
     domainList := domainList w;
     localStorage := localStorage w;
     network := network w;
     pending := v;
     invocations := invocations w |}.

Definition set_invocations (v : nat) (w : World) : World :=
  {| file := file w;
     threshold := threshold w;
     imageUrl := imageUrl w;
     results := results w;
     isLoading := isLoading w;
     error := error w;
     originalImage := originalImage w;
     imagePreview := imagePreview w;
     serviceDomain := serviceDomain w;
     domainList := domainList w;
     localStorage := localStorage w;
     network := network w;
     pending := pending w;
     invocations := v |}.

(** ** The script *)

Definition DEFAULT_DOMAIN : string := "https://ax-img-clip.dev.yiyiny.com".
Definition MSG_EMPTY_DOMAIN : string := "服务域名不能为空。".
Definition MSG_NO_TARGET : string := "未检测到目标。请尝试调整置信度阈值。".
Definition MSG_UNKNOWN : string := "发生未知错误。".

Definition MSG_API (r : Response) (errorText : string) : string :=
  "API 错误: " ++ pretty (status r) ++ " " ++ statusText r ++ " - " ++ errorText.

(** The refs as [<script setup>] creates them. *)
Definition initial (storage : Storage) : World :=
  {| file := None;
     threshold := Finite (Qc_of_Z 1 / Qc_of_Z 2)%Qc;
     imageUrl := "";
     results := Json (JArr []);
     isLoading := false;
     error := "";
     originalImage := None;
     imagePreview := None;
     serviceDomain := "";
     domainList := [];
     localStorage := storage;
     network := [];
     pending := 0;
     invocations := 0 |}.

(** [onMounted]: [x || d] on a string is [d] when [x] is [null] or empty. *)
Definition onMounted (w : World) : World :=
  let savedDomains := default [] (item_domainList (localStorage w)) in
  let lastUsedDomain :=
    match item_serviceDomain (localStorage w) with
    | Some s => if decide (s = "") then DEFAULT_DOMAIN else s
    | None => DEFAULT_DOMAIN
    end in
  let w :=
    if decide (0 < length savedDomains) then set_domainList savedDomains w
    else set_domainList [lastUsedDomain] w in
  set_serviceDomain lastUsedDomain w.

(** The callback of [watch(serviceDomain, ...)]. *)
Definition watch_serviceDomain (w : World) : World :=
  if decide (serviceDomain w = "") then w
  else
    set_localStorage
      {| item_serviceDomain := Some (serviceDomain w);
         item_domainList := item_domainList (localStorage w) |} w.

(** [addDomainToList] with its write accepted; [Quota.addDomainToList]
    has the write that is refused. *)
Definition addDomainToList (w : World) : World :=
  if decide (serviceDomain w ≠ "" ∧ serviceDomain w ∉ domainList w) then
    let w := set_domainList (domainList w ++ [serviceDomain w]) w in
    set_localStorage
      {| item_serviceDomain := item_serviceDomain (localStorage w);
         item_domainList := Some (domainList w) |} w
  else w.

(** [URL.createObjectURL]: a URL of the scheme [blob:], the rest chosen
    by the browser. *)
Definition createObjectURL (id : string) : string := "blob:" ++ id.

Definition handleFileChange (selected : option File) (id : string) (w : World) : World :=
  match selected with
  | None => w
  | Some selectedFile =>
      let w := set_file (Some selectedFile) w in
      let w := set_imageUrl (createObjectURL id) w in
      let w := set_results (Json (JArr [])) w in
      set_error "" w
  end.

(** [catch (e) { error.value = e.message || ... }]. *)
Definition catch (e : exn) (w : World) : World :=
  set_error (if decide (message e = "") then MSG_UNKNOWN else message e) w.

(** [fetch(...)]: the request leaves. *)
Definition fetch (r : Request) (w : World) : World :=
  set_pending (S (pending w)) (set_network (network w ++ [r]) w).

(** Where a call of [runDetection] stands when it gives control back:
    it has returned, or it waits for the promise of [fetch]. *)
Inductive progress :=
| Returned (w : World)
| Awaiting (w : World).

Definition world_of (p : progress) : World :=
  match p with Returned w | Awaiting w => w end.

(** [isLoading.value = true; error.value = ''; results.value = []]. *)
Definition start_loading (w : World) : World :=
  let w := set_isLoading true w in
  let w := set_error "" w in
  set_results (Json (JArr [])) w.

(** [runDetection], up to its first [await]. *)
Definition runDetection_begin (w : World) : progress :=
  let w := set_invocations (S (invocations w)) w in
  match file w with
  | None => Returned w
  | Some f =>
      let w := start_loading w in
      let w := addDomainToList w in
      if decide (serviceDomain w = "") then
        Returned (set_isLoading false (catch (Error MSG_EMPTY_DOMAIN) w))
      else
        Awaiting
          (fetch {| req_domain := serviceDomain w;
                    req_threshold := threshold w;
                    req_file := f |} w)
  end.

(** The body of [try] after [fetch] has settled: the exception it
    throws, or the decoded [data]. *)
Definition receive (o : FetchResult) : exn + json :=
  match o with
  | FetchRejected e => inl e
  | FetchResolved response =>
      if ok response then
        match json_body response with
        | Resolved data => inr data
        | Rejected e => inl e
        end
      else
        match text response with
        | Resolved errorText => inl (Error (MSG_API response errorText))
        | Rejected e => inl e
        end
  end.

(** [results.value = data[0]; if (data.length === 0) ...]. *)
Definition assign_results (data : json) (w : World) : World :=
  match index0 data with
  | inl e => catch e w
  | inr first =>
      let w := set_results first w in
      if strict_eq_zero (length_of data) then set_error MSG_NO_TARGET w else w
  end.

(** [runDetection], from the settling of [fetch] to its end. *)
Definition runDetection_settle (o : FetchResult) (w : World) : World :=
  let w := set_pending (pred (pending w)) w in
  let w :=
    match receive o with
    | inl e => catch e w
    | inr data => assign_results data w
    end in
  set_isLoading false w.

(** One call of [runDetection] with nothing else happening meanwhile. *)
Definition runDetection (o : FetchResult) (w : World) : World :=
  match runDetection_begin w with
  | Returned w' => w'
  | Awaiting w' => runDetection_settle o w'
  end.

(** The callback of [watch([imageUrl, threshold], ...)]. *)
Definition watch_imageUrl_threshold (w : World) : World :=
  if decide (imageUrl w = "") then w else world_of (runDetection_begin w).

(** The watchers run after a handler, each when a source of its own has
    changed, in the order of their creation. *)
Definition flush_watchers (old new : World) : World :=
  let w :=
    if decide (serviceDomain old = serviceDomain new) then new
    else watch_serviceDomain new in
  if decide (imageUrl old = imageUrl new ∧ threshold old = threshold new) then w
  else watch_imageUrl_threshold w.

(** The component once mounted: [immediate: true] runs the second
    watcher at its creation. *)
Definition mounted (storage : Storage) : World :=
  let w := watch_imageUrl_threshold (initial storage) in
  flush_watchers w (onMounted w).

Definition onImageLoad (target : ImageElement) (w : World) : World :=
  set_originalImage (Some target) w.

(** ** Overlay and crop *)

Record BBox := { x1 : number; y1 : number; x2 : number; y2 : number }.

(** A style object: [{}], or the four lengths, each one the number in
    front of [px]. *)
Record Rect := {
  css_left : number;
  css_top : number;
  css_width : number;
  css_height : number
}.

Inductive Style :=
| EmptyStyle
| RectStyle (r : Rect).

Definition scaleX (preview original : ImageElement) : number :=
  div (of_Z (clientWidth preview)) (of_N (naturalWidth original)).

Definition scaleY (preview original : ImageElement) : number :=
  div (of_Z (clientHeight preview)) (of_N (naturalHeight original)).

(** [getBboxStyle] reads the two refs and nothing else of the session. *)
Definition computeOverlayRect (bbox : BBox) (preview original : option ImageElement) : Style :=
  match preview, original with
  | Some p, Some o =>
      RectStyle
        {| css_left := mul (x1 bbox) (scaleX p o);
           css_top := mul (y1 bbox) (scaleY p o);
           css_width := mul (sub (x2 bbox) (x1 bbox)) (scaleX p o);
           css_height := mul (sub (y2 bbox) (y1 bbox)) (scaleY p o) |}
  | _, _ => EmptyStyle
  end.

Definition getBboxStyle (bbox : BBox) (w : World) : Style :=
  computeOverlayRect bbox (imagePreview w) (originalImage w).

(** The same function over any arithmetic: a type of numbers with its
    subtraction, product and quotient and the numbers of the two kinds
    of integer the element holds ([clientWidth] is a [long],
    [naturalWidth] an [unsigned long]).  [None] is the style [{}]. *)
Record arithmetic (num : Type) := {
  num_sub : num -> num -> num;
  num_mul : num -> num -> num;
  num_div : num -> num -> num;
  num_of_long : Z -> num;
  num_of_unsigned_long : N -> num
}.
Arguments num_sub {num} _ _ _.
Arguments num_mul {num} _ _ _.
Arguments num_div {num} _ _ _.
Arguments num_of_long {num} _ _.
Arguments num_of_unsigned_long {num} _ _.

Record rectangle (num : Type) := {
  r_left : num;
  r_top : num;
  r_width : num;
  r_height : num
}.
Arguments r_left {num} _.
Arguments r_top {num} _.
Arguments r_width {num} _.
Arguments r_height {num} _.

Definition overlay {num : Type} (A : arithmetic num) (x1 y1 x2 y2 : num)
    (preview original : option ImageElement) : option (rectangle num) :=
  match preview, original with
  | Some p, Some o =>
      let scaleX :=
        num_div A (num_of_long A (clientWidth p))
          (num_of_unsigned_long A (naturalWidth o)) in
      let scaleY :=
        num_div A (num_of_long A (clientHeight p))
          (num_of_unsigned_long A (naturalHeight o)) in
      Some {| r_left := num_mul A x1 scaleX;
              r_top := num_mul A y1 scaleY;
              r_width := num_mul A (num_sub A x2 x1) scaleX;
              r_height := num_mul A (num_sub A y2 y1) scaleY |}
  | _, _ => None
  end.

(** The arithmetic without rounding, as in [computeOverlayRect]. *)
Definition exact : arithmetic number :=
  {| num_sub := sub; num_mul := mul; num_div := div;
     num_of_long := of_Z; num_of_unsigned_long := of_N |}.

(** The arithmetic of the language: binary64, every operation rounded
    to nearest.  The integers of an element are below 2^32 and have
    their own binary64 number. *)
Module Binary64.

Definition of_long (z : Z) : PrimFloat.float :=
  if (z <? 0)%Z then PrimFloat.opp (PrimFloat.of_uint63 (Uint63.of_Z (- z)))
  else PrimFloat.of_uint63 (Uint63.of_Z z).

Definition of_unsigned_long (n : N) : PrimFloat.float :=
  PrimFloat.of_uint63 (Uint63.of_Z (Z.of_N n)).

Definition arith : arithmetic PrimFloat.float :=
  {| num_sub := PrimFloat.sub; num_mul := PrimFloat.mul; num_div := PrimFloat.div;
     num_of_long := of_long; num_of_unsigned_long := of_unsigned_long |}.

End Binary64.

(** [ctx.drawImage(image, sx, sy, sw, sh, dx, dy, dw, dh)]. *)
Record DrawImage := {
  draw_image : ImageElement;
  sx : number; sy : number; sw : number; sh : number;
  dx : number; dy : number; dw : number; dh : number
}.

(** A number assigned to an attribute of type [unsigned long]: NaN and
    the infinities become 0, any other number loses its fraction and is
    taken modulo 2^32. *)
Definition to_unsigned_long (v : number) : Z :=
  match v with
  | Finite q => (Z.quot (Qnum q) (Z.pos (Qden q))) mod 4294967296
  | Infinity _ | NaN => 0
  end.

(** [canvas.width = v] and [canvas.height = v]: the attribute reflects
    an unsigned integer of at most 2147483647, and takes its default
    (300 for the width, 150 for the height) for a value above that. *)
Definition reflected (default : Z) (v : number) : Z :=
  if decide (to_unsigned_long v <= 2147483647)%Z then to_unsigned_long v else default.

(** The offscreen canvas after the call: its size in pixels, as the
    element holds it, and what was drawn. *)
Record Canvas := {
  canvas_width : Z;
  canvas_height : Z;
  canvas_drawn : DrawImage
}.

(** [name.split('.')[0]]. *)
Fixpoint before_first_dot (s : string) : string :=
  match s with
  | EmptyString => EmptyString
  | String c rest =>
      if decide (c = "."%char) then EmptyString
      else String c (before_first_dot rest)
  end.

(** What a call of [downloadCrop] did: nothing, a canvas and then a
    TypeError at [file.value.name], or a canvas and a download under a
    name; the content type of the download is [image/png]. *)
Inductive Crop :=
| NoCrop
| CropThrew (c : Canvas)
| Downloaded (c : Canvas) (download : string).

Definition downloadCrop (bbox : BBox) (index : nat) (w : World) : Crop :=
  match originalImage w with
  | None => NoCrop
  | Some image =>
      let cropWidth := sub (x2 bbox) (x1 bbox) in
      let cropHeight := sub (y2 bbox) (y1 bbox) in
      let canvas :=
        {| canvas_width := reflected 300 cropWidth;
           canvas_height := reflected 150 cropHeight;
           canvas_drawn :=
             {| draw_image := image;
                sx := x1 bbox; sy := y1 bbox; sw := cropWidth; sh := cropHeight;
                dx := of_Z 0; dy := of_Z 0; dw := cropWidth; dh := cropHeight |} |} in
      match file w with
      | None => CropThrew canvas
      | Some f =>
          Downloaded canvas
            ("裁切_" ++ before_first_dot (file_name f) ++ "_" ++ pretty index ++ ".png")
      end
  end.

(** ** The session as a transition system *)

Inductive Event :=
| FileChange (selected : option File) (id : string)
| ThresholdInput (v : number)
| DomainInput (v : string)
| RefreshClick
| RetryClick
| ImageLoad (target : ImageElement)
| PreviewBound (el : ImageElement)
| FetchSettled (o : FetchResult).

(** When the page can deliver the event: the refresh button is disabled
    without a file or while loading, the retry button and the image are
    rendered under [v-if], and a promise settles only once made. *)
Definition enabled (e : Event) (w : World) : bool :=
  match e with
  | RefreshClick => bool_decide (file w ≠ None) && negb (isLoading w)
  | RetryClick => bool_decide (error w ≠ "")
  | ImageLoad _ | PreviewBound _ => bool_decide (imageUrl w ≠ "")
  | FetchSettled _ => bool_decide (0 < pending w)
  | _ => true
  end.

(** The handler of the event; [v-model] assigns the ref. *)
Definition handler (e : Event) (w : World) : World :=
  match e with
  | FileChange selected id => handleFileChange selected id w
  | ThresholdInput v => set_threshold v w
  | DomainInput v => set_serviceDomain v w
  | RefreshClick | RetryClick => world_of (runDetection_begin w)
  | ImageLoad target => onImageLoad target w
  | PreviewBound el => set_imagePreview (Some el) w
  | FetchSettled o => runDetection_settle o w
  end.

Definition handle (e : Event) (w : World) : World :=
  flush_watchers w (handler e w).

(** [setThreshold] and [setServiceAddress] of the specification. *)
Definition setThreshold (v : number) (w : World) : World := handle (ThresholdInput v) w.
Definition setServiceAddress (v : string) (w : World) : World := handle (DomainInput v) w.

Inductive reachable : World -> Prop :=
| reachable_mounted storage : reachable (mounted storage)
| reachable_step w e :
    reachable w -> enabled e w = true -> reachable (handle e w).

(** Running a list of events from a state, [None] when one is not enabled. *)
Fixpoint run (es : list Event) (w : World) : option World :=
  match es with
  | [] => Some w
  | e :: rest => if enabled e w then run rest (handle e w) else None
  end.

(** ** A storage that refuses writes

    [localStorage.setItem] throws when the quota is exceeded or the
    storage is denied.  The definitions above are the script with every
    write accepted; those of this module take the fate of the write as
    an argument (an event leads to one write at most).  An exception in
    the callback of a watcher goes to the error handler of the
    framework and the refs stay as they are; an exception in
    [addDomainToList] leaves [runDetection] before its [try]. *)

Inductive write :=
| Stored
| Refused (e : exn).

Module Quota.

Definition watch_serviceDomain (wr : write) (w : World) : World :=
  if decide (serviceDomain w = "") then w
  else
    match wr with
    | Stored =>
        set_localStorage
          {| item_serviceDomain := Some (serviceDomain w);
             item_domainList := item_domainList (localStorage w) |} w
    | Refused _ => w
    end.

(** The session after the call, and the exception it threw, if any:
    the push comes before the write. *)
Definition addDomainToList (wr : write) (w : World) : World * option exn :=
  if decide (serviceDomain w ≠ "" ∧ serviceDomain w ∉ domainList w) then
    let w := set_domainList (domainList w ++ [serviceDomain w]) w in
    match wr with
    | Stored =>
        (set_localStorage
           {| item_serviceDomain := item_serviceDomain (localStorage w);
              item_domainList := Some (domainList w) |} w, None)
    | Refused e => (w, Some e)
    end
  else (w, None).

(** Where a call of [runDetection] stands when it gives control back:
    returned, waiting for [fetch], or left by an exception that nothing
    in it caught. *)
Inductive progress :=
| Returned (w : World)
| Awaiting (w : World)
| Threw (e : exn) (w : World).

Definition world_of (p : progress) : World :=
  match p with Returned w | Awaiting w | Threw _ w => w end.

Definition runDetection_begin (wr : write) (w : World) : progress :=
  let w := set_invocations (S (invocations w)) w in
  match file w with
  | None => Returned w
  | Some f =>
      let w := start_loading w in
      match addDomainToList wr w with
      | (w, Some e) => Threw e w
      | (w, None) =>
          if decide (serviceDomain w = "") then
            Returned (set_isLoading false (catch (Error MSG_EMPTY_DOMAIN) w))
          else
            Awaiting
              (fetch {| req_domain := serviceDomain w;
                        req_threshold := threshold w;
                        req_file := f |} w)
      end
  end.

Definition watch_imageUrl_threshold (wr : write) (w : World) : World :=
  if decide (imageUrl w = "") then w else world_of (runDetection_begin wr w).

Definition flush_watchers (wr : write) (old new : World) : World :=
  let w :=
    if decide (serviceDomain old = serviceDomain new) then new
    else watch_serviceDomain wr new in
  if decide (imageUrl old = imageUrl new ∧ threshold old = threshold new) then w
  else watch_imageUrl_threshold wr w.

Definition mounted (wr : write) (storage : Storage) : World :=
  let w := watch_imageUrl_threshold wr (initial storage) in
  flush_watchers wr w (onMounted w).

Definition handler (wr : write) (e : Event) (w : World) : World :=
  match e with
  | FileChange selected id => handleFileChange selected id w
  | ThresholdInput v => set_threshold v w
  | DomainInput v => set_serviceDomain v w
  | RefreshClick | RetryClick => world_of (runDetection_begin wr w)
  | ImageLoad target => onImageLoad target w
  | PreviewBound el => set_imagePreview (Some el) w
  | FetchSettled o => runDetection_settle o w
  end.

Definition handle (wr : write) (e : Event) (w : World) : World :=
  flush_watchers wr w (handler wr e w).

(** The sessions a page can be in when its writes meet the condition
    [allowed]: any write, or only accepted ones. *)
Inductive reachable (allowed : write -> Prop) : World -> Prop :=
| reachable_mounted wr storage :
    allowed wr -> reachable allowed (mounted wr storage)
| reachable_step w wr e :
    reachable allowed w -> allowed wr -> enabled e w = true ->
    reachable allowed (handle wr e w).

Fixpoint run (es : list (write * Event)) (w : World) : option World :=
  match es with
  | [] => Some w
  | (wr, e) :: rest => if enabled e w then run rest (handle wr e w) else None
  end.

End Quota.

Definition any_write (wr : write) : Prop := True.
Definition accepted (wr : write) : Prop := wr = Stored.

(** The exception of a full storage. *)
Definition QUOTA_EXCEEDED : exn := Error "The quota has been exceeded.".

(** The canvas a call of [downloadCrop] made, if it made one. *)
Definition canvas_of (c : Crop) : option Canvas :=
  match c with
  | NoCrop => None
  | CropThrew canvas | Downloaded canvas _ => Some canvas
  end.

(** The exception the body of [try] throws once [fetch] has settled, if
    it throws one: a rejected [fetch], a status outside 200-299, a body
    that does not read or parse, or [data] being [null]. *)
Definition thrown (o : FetchResult) : option exn :=
  match receive o with
  | inl e => Some e
  | inr data =>
      match index0 data with
      | inl e => Some e
      | inr _ => None
      end
  end.

(** An event after which [results] can differ from the empty array it
    was: only a response that is taken without an exception. *)
Definition writes_results (e : Event) : Prop :=
  match e with
  | FetchSettled o => thrown o = None
  | _ => False
  end.

(** A response of status 200 whose body parses to [data]. *)
Definition ok_response (data : json) : FetchResult :=
  FetchResolved
    {| status := 200; statusText := "OK";
       text := Resolved ""; json_body := Resolved data |}.

(** What every reachable session satisfies: [isLoading] is raised only
    with a file selected, a selected file has its preview URL, and every
    request that left carries a non-empty address which [domainList]
    holds. *)
Definition session_invariant (w : World) : Prop :=
  (file w = None -> isLoading w = false) /\
  (file w ≠ None -> imageUrl w ≠ "") /\
  (forall r, r ∈ network w -> req_domain r ≠ "" /\ (req_domain r ∈ domainList w)).

(** What the stored list holds: the list of the session, or nothing yet
    while the session runs on the one address [onMounted] seeded. *)
Definition stored_domains (w : World) : list string :=
  default [] (item_domainList (localStorage w)).

Definition storage_invariant (w : World) : Prop :=
  stored_domains w = domainList w \/
  (stored_domains w = [] /\ exists d, domainList w = [d]).

(** The displayed size over the natural size, as a rational. *)
Definition ratio (displayed : Z) (natural : N) : Qc :=
  (Qc_of_Z displayed / Qc_of_Z (Z.of_N natural))%Qc.

(** The same displayed image, [m] times as wide and [n] times as high. *)
Definition stretch (m n : Z) (p : ImageElement) : ImageElement :=
  {| clientWidth := m * clientWidth p;
     clientHeight := n * clientHeight p;
     naturalWidth := naturalWidth p;
     naturalHeight := naturalHeight p |}.

(** The session before a file was ever picked: nothing was called or
    sent, nothing is shown. *)
Definition idle (w : World) : Prop :=
  invocations w = 0 /\ network w = [] /\ pending w = 0 /\
  results w = Json (JArr []) /\ error w = "" /\ isLoading w = false /\
  imageUrl w = "" /\ originalImage w = None /\ imagePreview w = None.

(** How the log and the loading flag go together: no more requests in
    flight than were sent, no more sent than [runDetection] was called,
    the flag up only with a request in flight, and without a file the
    session is idle. *)
Definition accounting (w : World) : Prop :=
  pending w <= length (network w) /\
  length (network w) <= invocations w /\
  (isLoading w = true -> 0 < pending w) /\
  (file w = None -> idle w).

(** The stored last-used address: a non-empty one, and the address of
    the session unless that one is empty. *)
Definition last_used (w : World) : Prop :=
  exists s, item_serviceDomain (localStorage w) = Some s /\ s ≠ "" /\
            (serviceDomain w = s \/ serviceDomain w = "").

(** A list that stayed as it was or got [d], new and non-empty, at its end. *)
Definition grows_by (d : string) (l l' : list string) : Prop :=
  l' = l \/ (d ≠ "" /\ (d ∉ l) /\ l' = (l ++ [d])%list).

(** The request [runDetection] sends for the session as it stands. *)
Definition request_of (f : File) (w : World) : Request :=
  {| req_domain := serviceDomain w; req_threshold := threshold w; req_file := f |}.

(** ** Sample states *)

Definition fresh_storage : Storage :=
  {| item_serviceDomain := None; item_domainList := None |}.

Definition sample_file : File :=
  {| file_name := "scroll.v2.jpg"; file_bytes := "" |}.

(** A fresh page, and the same page after a file was picked: the
    watcher has called [runDetection], whose request is in flight. *)
Definition page_mounted : World := mounted fresh_storage.
Definition page_selected : World :=
  handle (FileChange (Some sample_file) "0a1b") page_mounted.

(** The page with a file after its request was answered by an empty
    first batch, and then with a new address typed while the storage
    refuses its writes. *)
Definition page_answered : World :=
  handle (FetchSettled (ok_response (JArr [JArr []]))) page_selected.
Definition page_new_address : World :=
  Quota.handle (Refused QUOTA_EXCEEDED) (DomainInput "http://10.0.0.2") page_answered.

(** A 1000x1000 image displayed at 400x400. *)
Definition small_preview : ImageElement :=
  {| clientWidth := 400; clientHeight := 400;
     naturalWidth := 1000; naturalHeight := 1000 |}.

Definition sample_image : ImageElement :=
  {| clientWidth := 500; clientHeight := 400;
     naturalWidth := 1000; naturalHeight := 1000 |}.

Definition sample_bbox : BBox :=
  {| x1 := of_Z 10; y1 := of_Z 20; x2 := of_Z 110; y2 := of_Z 220 |}.

(** * Properties *)

(** ** [runDetection] before the request *)

Lemma runDetection_begin_no_file (w : World) :
  file w = None ->
  runDetection_begin w = Returned (set_invocations (S (invocations w)) w).
Proof. intros Hf. unfold runDetection_begin. simpl. now rewrite Hf. Qed.

Lemma addDomainToList_noop (w : World) :
  serviceDomain w = "" \/ (serviceDomain w ∈ domainList w) ->
  addDomainToList w = w.
Proof.
  intros H. unfold addDomainToList.
  case_decide as Hd; [|reflexivity].
  destruct Hd as [Hne Hnotin]. destruct H; contradiction.
Qed.

Lemma addDomainToList_new (w : World) :
  serviceDomain w ≠ "" -> serviceDomain w ∉ domainList w ->
  addDomainToList w =
    set_localStorage
      {| item_serviceDomain := item_serviceDomain (localStorage w);
         item_domainList := Some (domainList w ++ [serviceDomain w])%list |}
      (set_domainList (domainList w ++ [serviceDomain w]) w).
Proof.
  intros Hne Hnotin. unfold addDomainToList.
  case_decide as Hd; [reflexivity|]. exfalso. apply Hd. now split.
Qed.

Lemma addDomainToList_serviceDomain (w : World) :
  serviceDomain (addDomainToList w) = serviceDomain w.
Proof. unfold addDomainToList. case_decide; reflexivity. Qed.

Lemma addDomainToList_member (w : World) :
  serviceDomain w ≠ "" -> serviceDomain w ∈ domainList (addDomainToList w).
Proof.
  intros Hne. destruct (decide (serviceDomain w ∈ domainList w)) as [Hin|Hnotin].
  - rewrite addDomainToList_noop by now right. exact Hin.
  - rewrite addDomainToList_new by assumption. simpl.
    apply elem_of_app. right. apply list_elem_of_singleton. reflexivity.
Qed.

Lemma addDomainToList_frame (w : World) :
  file (addDomainToList w) = file w /\
  isLoading (addDomainToList w) = isLoading w /\
  imageUrl (addDomainToList w) = imageUrl w /\
  threshold (addDomainToList w) = threshold w /\
  network (addDomainToList w) = network w /\
  results (addDomainToList w) = results w /\
  error (addDomainToList w) = error w.
Proof. unfold addDomainToList. case_decide; repeat split. Qed.

Lemma runDetection_begin_empty_domain (w : World) (f : File) :
  file w = Some f -> serviceDomain w = "" ->
  runDetection_begin w =
    Returned
      (set_isLoading false
         (set_error MSG_EMPTY_DOMAIN
            (start_loading (set_invocations (S (invocations w)) w)))).
Proof.
  intros Hf Hd. unfold runDetection_begin. simpl. rewrite Hf.
  rewrite addDomainToList_noop by (left; exact Hd).
  simpl. rewrite Hd. reflexivity.
Qed.

Lemma runDetection_begin_fetch (w : World) (f : File) :
  file w = Some f -> serviceDomain w ≠ "" ->
  runDetection_begin w =
    Awaiting
      (fetch {| req_domain := serviceDomain w;
                req_threshold := threshold w;
                req_file := f |}
         (addDomainToList (start_loading (set_invocations (S (invocations w)) w)))).
Proof.
  intros Hf Hd. unfold runDetection_begin. simpl. rewrite Hf.
  rewrite addDomainToList_serviceDomain. simpl.
  case_decide; [contradiction|].
  destruct (addDomainToList_frame
              (start_loading (set_invocations (S (invocations w)) w)))
    as (_ & _ & _ & -> & _).
  reflexivity.
Qed.

(** ** Domain memory *)

(** C8. [addDomainToList] (the [remember] of the specification, applied
    to the current [serviceDomain]) changes nothing when the address is
    empty or already in [domainList]; otherwise it appends the address
    and stores the whole list; applying it twice is applying it once,
    and from an empty list two calls with one non-empty address leave a
    list of length 1. *)
Theorem addDomainToList_idempotent (w : World) :
  (serviceDomain w = "" \/ (serviceDomain w ∈ domainList w) ->
   addDomainToList w = w) /\
  (serviceDomain w ≠ "" -> serviceDomain w ∉ domainList w ->
   domainList (addDomainToList w) = (domainList w ++ [serviceDomain w])%list /\
   item_domainList (localStorage (addDomainToList w)) =
     Some (domainList w ++ [serviceDomain w])%list) /\
  addDomainToList (addDomainToList w) = addDomainToList w /\
  (domainList w = [] -> serviceDomain w ≠ "" ->
   domainList (addDomainToList (addDomainToList w)) = [serviceDomain w] /\
   length (domainList (addDomainToList (addDomainToList w))) = 1%nat).
Proof.
  assert (Hidem : addDomainToList (addDomainToList w) = addDomainToList w).
  { destruct (decide (serviceDomain w = "")) as [He|Hne].
    - now rewrite !(addDomainToList_noop w) by (left; exact He).
    - apply addDomainToList_noop. right.
      rewrite addDomainToList_serviceDomain. now apply addDomainToList_member. }
  split; [apply addDomainToList_noop|].
  split.
  { intros Hne Hnotin. now rewrite addDomainToList_new by assumption. }
  split; [exact Hidem|].
  intros Hnil Hne. rewrite Hidem.
  rewrite addDomainToList_new; [simpl; now rewrite Hnil | exact Hne |].
  rewrite Hnil. apply not_elem_of_nil.
Qed.

(** C8 at work: an empty address on the fresh page, and one address
    remembered twice from the empty list. *)
Lemma addDomainToList_idempotent_witness :
  addDomainToList (set_serviceDomain "" page_mounted) = set_serviceDomain "" page_mounted /\
  length
    (domainList
       (addDomainToList
          (addDomainToList
             (set_serviceDomain "http://127.0.0.1:8000" (initial fresh_storage))))) = 1%nat.
Proof.
  split.
  - apply (proj1 (addDomainToList_idempotent (set_serviceDomain "" page_mounted))).
    left. reflexivity.
  - apply (proj2 (proj2 (proj2 (addDomainToList_idempotent
             (set_serviceDomain "http://127.0.0.1:8000" (initial fresh_storage)))))).
    + reflexivity.
    + simpl. discriminate.
Defined.

(** ** Validation *)

(** C4 as stated does not hold: with no file selected and an empty
    address, [runDetection] returns at its first line; [error] stays
    empty and nothing else of the session changes. *)
Lemma runDetection_no_file_no_error :
  let w := setServiceAddress "" page_mounted in
  file w = None /\ serviceDomain w = "" /\
  (forall o, error (runDetection o w) = "") /\
  MSG_EMPTY_DOMAIN ≠ "".
Proof.
  repeat split; try reflexivity. discriminate.
Qed.

(** C4, amended. With a file selected and an empty address
    [runDetection] ends before [fetch]: [error] is the message of the
    empty address, no request leaves, [isLoading] is false. With no file
    selected it returns at once: no message, no request, the refs
    untouched. *)
Theorem runDetection_validation (w : World) (o : FetchResult) :
  (forall f, file w = Some f -> serviceDomain w = "" ->
     (exists w', runDetection_begin w = Returned w') /\
     error (runDetection o w) = MSG_EMPTY_DOMAIN /\
     network (runDetection o w) = network w /\
     pending (runDetection o w) = pending w /\
     isLoading (runDetection o w) = false) /\
  (file w = None ->
     runDetection o w = set_invocations (S (invocations w)) w /\
     error (runDetection o w) = error w /\
     network (runDetection o w) = network w /\
     pending (runDetection o w) = pending w).
Proof.
  split.
  - intros f Hf Hd. unfold runDetection.
    rewrite (runDetection_begin_empty_domain w f Hf Hd).
    split; [eauto|]. repeat split.
  - intros Hf. unfold runDetection.
    rewrite (runDetection_begin_no_file w Hf). repeat split.
Qed.

(** C4 at work: the page with a file and the address cleared, and the
    fresh page without a file. *)
Lemma runDetection_validation_witness :
  error (runDetection (ok_response (JArr [])) (setServiceAddress "" page_selected))
    = MSG_EMPTY_DOMAIN /\
  network (runDetection (ok_response (JArr [])) (setServiceAddress "" page_selected))
    = network (setServiceAddress "" page_selected) /\
  error (runDetection (ok_response (JArr [])) page_mounted) = error page_mounted.
Proof.
  pose proof (runDetection_validation (setServiceAddress "" page_selected)
                (ok_response (JArr []))) as [Hsel _].
  pose proof (runDetection_validation page_mounted (ok_response (JArr []))) as [_ Hnone].
  destruct (Hsel sample_file eq_refl eq_refl) as (_ & He & Hn & _).
  destruct (Hnone eq_refl) as (_ & He' & _).
  repeat split; assumption.
Defined.

(** ** [runDetection] after the response *)

Lemma length_of_array_zero (items : list json) :
  strict_eq_zero (length_of (JArr items)) = bool_decide (items = []).
Proof.
  destruct items as [|j items].
  - reflexivity.
  - unfold strict_eq_zero, length_of, of_nat.
    rewrite (bool_decide_eq_false_2 (j :: items = [])) by discriminate.
    apply bool_decide_eq_false_2.
    rewrite <- Z2Qc_inj_0. intros H. apply Z2Qc_inj in H. simpl in H. lia.
Qed.

Lemma receive_ok_json (r : Response) (data : json) :
  ok r = true -> json_body r = Resolved data ->
  receive (FetchResolved r) = inr data.
Proof. intros Hok Hj. simpl. now rewrite Hok, Hj. Qed.

(** A 2xx response that parses to an array: [results] becomes its first
    element, [undefined] when there is none, and the notice is set
    exactly when the array is empty. *)
Lemma runDetection_settle_array (r : Response) (items : list json) (w : World) :
  ok r = true -> json_body r = Resolved (JArr items) ->
  runDetection_settle (FetchResolved r) w =
    let w := set_pending (pred (pending w)) w in
    let w := set_results (of_option (head items)) w in
    set_isLoading false (if bool_decide (items = []) then set_error MSG_NO_TARGET w else w).
Proof.
  intros Hok Hj. unfold runDetection_settle.
  rewrite (receive_ok_json r _ Hok Hj). unfold assign_results.
  simpl index0. cbv iota beta. rewrite length_of_array_zero. reflexivity.
Qed.

(** An exit by an exception leaves [results] as it was and reports the
    message. *)
Lemma runDetection_settle_thrown (o : FetchResult) (e : exn) (w : World) :
  thrown o = Some e ->
  runDetection_settle o w =
    set_isLoading false (catch e (set_pending (pred (pending w)) w)).
Proof.
  unfold thrown, runDetection_settle, assign_results. intros H.
  destruct (receive o) as [e'|data].
  - now inversion H.
  - destruct (index0 data) as [e'|v]; [now inversion H | discriminate].
Qed.

Lemma runDetection_settle_isLoading (o : FetchResult) (w : World) :
  isLoading (runDetection_settle o w) = false.
Proof. reflexivity. Qed.

(** C1, on the code. A file is picked on a fresh page and the service
    answers 200 with the body [[]]: [error] is the notice and the call
    ends normally with [isLoading] false, but [results] is [data[0]] of
    an empty array, [undefined], and not the empty array. *)
Theorem empty_body_results_undefined :
  exists w,
    run [FileChange (Some sample_file) "0a1b"; FetchSettled (ok_response (JArr []))]
        page_mounted = Some w /\
    results w = Undefined /\
    results w ≠ Json (JArr []) /\
    error w = MSG_NO_TARGET /\
    isLoading w = false.
Proof.
  exists (handle (FetchSettled (ok_response (JArr []))) page_selected).
  split; [vm_compute; reflexivity|].
  split; [reflexivity|]. split; [discriminate|]. split; reflexivity.
Qed.

(** C10. A 2xx response whose body is an array with an empty first batch
    gives [results = []] and leaves [error] empty; over array bodies the
    notice appears exactly when the outer array is empty. *)
Theorem empty_first_batch_no_notice
    (w : World) (f : File) (r : Response) (rest : list json) :
  file w = Some f -> serviceDomain w ≠ "" ->
  ok r = true -> json_body r = Resolved (JArr (JArr [] :: rest)) ->
  results (runDetection (FetchResolved r) w) = Json (JArr []) /\
  error (runDetection (FetchResolved r) w) = "" /\
  (forall w0, results (runDetection_settle (FetchResolved r) w0) = Json (JArr []) /\
              error (runDetection_settle (FetchResolved r) w0) = error w0) /\
  (forall r' items, ok r' = true -> json_body r' = Resolved (JArr items) ->
     (error (runDetection (FetchResolved r') w) = MSG_NO_TARGET <-> items = [])).
Proof.
  intros Hf Hd Hok Hj. unfold runDetection.
  rewrite (runDetection_begin_fetch w f Hf Hd).
  assert (Herr : error (addDomainToList
                   (start_loading (set_invocations (S (invocations w)) w))) = "").
  { unfold addDomainToList. case_decide; reflexivity. }
  repeat apply conj.
  - now rewrite (runDetection_settle_array r _ _ Hok Hj).
  - rewrite (runDetection_settle_array r _ _ Hok Hj). exact Herr.
  - intros w0. now rewrite (runDetection_settle_array r _ _ Hok Hj).
  - intros r' items Hok' Hj'.
    rewrite (runDetection_settle_array r' _ _ Hok' Hj').
    destruct items as [|j items]; simpl.
    + split; reflexivity.
    + rewrite Herr. split; discriminate.
Qed.

(** C10 at work: the body [[[]]] on the page with a file. *)
Lemma empty_first_batch_no_notice_witness :
  results (runDetection (ok_response (JArr [JArr []])) page_selected) = Json (JArr []) /\
  error (runDetection (ok_response (JArr [JArr []])) page_selected) = "".
Proof.
  destruct (empty_first_batch_no_notice page_selected sample_file
              {| status := 200; statusText := "OK";
                 text := Resolved ""; json_body := Resolved (JArr [JArr []]) |} [])
    as (Hr & He & _).
  - reflexivity.
  - simpl. discriminate.
  - reflexivity.
  - reflexivity.
  - split; [exact Hr | exact He].
Defined.

(** ** Invariants of the session *)

Lemma addDomainToList_domainList_mono (w : World) (d : string) :
  d ∈ domainList w -> d ∈ domainList (addDomainToList w).
Proof.
  intros Hd. unfold addDomainToList. case_decide; [|exact Hd].
  simpl. apply elem_of_app. now left.
Qed.

Lemma runDetection_begin_invariant (w : World) :
  session_invariant w -> session_invariant (world_of (runDetection_begin w)).
Proof.
  destruct (file w) as [f|] eqn:Hf; intros (Hload & Hurl & Hnet).
  - destruct (decide (serviceDomain w = "")) as [Hd|Hd].
    + rewrite (runDetection_begin_empty_domain w f Hf Hd).
      unfold session_invariant. simpl.
      split; [reflexivity|]. split; [exact Hurl | exact Hnet].
    + rewrite (runDetection_begin_fetch w f Hf Hd).
      set (w1 := start_loading (set_invocations (S (invocations w)) w)).
      destruct (addDomainToList_frame w1) as (Ef & _ & Eu & _ & En & _).
      unfold session_invariant, fetch. simpl. rewrite Ef, Eu, En.
      split; [|split].
      * simpl. rewrite Hf. discriminate.
      * intros _. apply Hurl. rewrite Hf. discriminate.
      * intros r Hr. apply elem_of_app in Hr as [Hr | Hr].
        -- split; [now apply Hnet|].
           apply addDomainToList_domainList_mono. now apply Hnet.
        -- apply list_elem_of_singleton in Hr. subst r. simpl.
           split; [exact Hd|]. apply (addDomainToList_member w1). exact Hd.
  - rewrite (runDetection_begin_no_file w Hf).
    unfold session_invariant. simpl.
    split; [exact Hload|]. split; [exact Hurl | exact Hnet].
Qed.

Lemma runDetection_settle_frame (o : FetchResult) (w : World) :
  file (runDetection_settle o w) = file w /\
  imageUrl (runDetection_settle o w) = imageUrl w /\
  threshold (runDetection_settle o w) = threshold w /\
  serviceDomain (runDetection_settle o w) = serviceDomain w /\
  domainList (runDetection_settle o w) = domainList w /\
  localStorage (runDetection_settle o w) = localStorage w /\
  network (runDetection_settle o w) = network w /\
  invocations (runDetection_settle o w) = invocations w.
Proof.
  unfold runDetection_settle, assign_results, catch.
  destruct (receive o) as [e|data]; [repeat split|].
  destruct (index0 data) as [e|v]; [repeat split|].
  destruct (strict_eq_zero (length_of data)); repeat split.
Qed.

Lemma runDetection_settle_invariant (o : FetchResult) (w : World) :
  session_invariant w -> session_invariant (runDetection_settle o w).
Proof.
  intros (Hload & Hurl & Hnet).
  destruct (runDetection_settle_frame o w) as (Ef & Eu & _ & _ & El & _ & En & _).
  unfold session_invariant. rewrite Ef, Eu, El, En.
  split; [intros _; apply runDetection_settle_isLoading|]. now split.
Qed.

Lemma watch_serviceDomain_invariant (w : World) :
  session_invariant w -> session_invariant (watch_serviceDomain w).
Proof. intros Hinv. unfold watch_serviceDomain. case_decide; exact Hinv. Qed.

Lemma watch_imageUrl_threshold_invariant (w : World) :
  session_invariant w -> session_invariant (watch_imageUrl_threshold w).
Proof.
  intros Hinv. unfold watch_imageUrl_threshold.
  case_decide; [exact Hinv|]. now apply runDetection_begin_invariant.
Qed.

Lemma flush_watchers_invariant (old new : World) :
  session_invariant new -> session_invariant (flush_watchers old new).
Proof.
  intros Hinv. unfold flush_watchers.
  repeat case_decide;
    auto using watch_serviceDomain_invariant, watch_imageUrl_threshold_invariant.
Qed.

Lemma handler_invariant (e : Event) (w : World) :
  session_invariant w -> session_invariant (handler e w).
Proof.
  intros Hinv. destruct e as [[f|] id|v|v| | |el|el|o]; simpl;
    try (apply runDetection_begin_invariant; exact Hinv);
    try (apply runDetection_settle_invariant; exact Hinv);
    try exact Hinv.
  destruct Hinv as (Hload & Hurl & Hnet).
  unfold session_invariant. simpl.
  split; [discriminate|]. split; [discriminate | exact Hnet].
Qed.

Lemma mounted_invariant (storage : Storage) : session_invariant (mounted storage).
Proof.
  unfold mounted. apply flush_watchers_invariant.
  assert (Hidle : forall w, file w = None -> isLoading w = false -> network w = [] ->
                            session_invariant w).
  { intros w Hf Hl Hn. unfold session_invariant. rewrite Hf, Hl, Hn.
    split; [reflexivity|]. split; [congruence|].
    intros r Hr. now apply elem_of_nil in Hr. }
  unfold onMounted. case_decide; now apply Hidle.
Qed.

Lemma reachable_invariant (w : World) : reachable w -> session_invariant w.
Proof.
  induction 1 as [storage | w e _ IH _].
  - apply mounted_invariant.
  - apply flush_watchers_invariant, handler_invariant, IH.
Qed.

(** The page with a file is reachable: mount, then pick the file. *)
Ltac reach_page_selected :=
  apply (reachable_step page_mounted (FileChange (Some sample_file) "0a1b"));
  [apply reachable_mounted | reflexivity].

(** ** Re-triggering *)

Lemma runDetection_begin_invocations (w : World) :
  invocations (world_of (runDetection_begin w)) = S (invocations w).
Proof.
  destruct (file w) as [f|] eqn:Hf.
  - destruct (decide (serviceDomain w = "")) as [Hd|Hd].
    + now rewrite (runDetection_begin_empty_domain w f Hf Hd).
    + rewrite (runDetection_begin_fetch w f Hf Hd). simpl.
      unfold addDomainToList. case_decide; reflexivity.
  - now rewrite (runDetection_begin_no_file w Hf).
Qed.

(** C2 as stated does not hold: on the page with a file selected, a
    new service address calls [runDetection] not once more and sends
    nothing; the watcher of [serviceDomain] only stores the address. *)
Lemma setServiceAddress_no_detection :
  let w := setServiceAddress "http://127.0.0.1:8000" page_selected in
  file page_selected = Some sample_file /\
  serviceDomain page_selected ≠ "http://127.0.0.1:8000" /\
  serviceDomain w = "http://127.0.0.1:8000" /\
  invocations w = invocations page_selected /\
  network w = network page_selected.
Proof.
  cbv zeta. repeat split. discriminate.
Qed.

(** C2, amended. In a session with a file selected, [setThreshold]
    with a new value calls [runDetection] again, on the new threshold.
    [setServiceAddress] sets the address and stores a new non-empty one
    as the last used; it does not call [runDetection] and sends no
    request. *)
Theorem setThreshold_retriggers (w : World) :
  reachable w -> file w ≠ None ->
  (forall v, v ≠ threshold w ->
     setThreshold v w = world_of (runDetection_begin (set_threshold v w)) /\
     invocations (setThreshold v w) = S (invocations w)) /\
  (forall d,
     serviceDomain (setServiceAddress d w) = d /\
     invocations (setServiceAddress d w) = invocations w /\
     network (setServiceAddress d w) = network w /\
     results (setServiceAddress d w) = results w /\
     error (setServiceAddress d w) = error w /\
     isLoading (setServiceAddress d w) = isLoading w /\
     (d ≠ "" -> d ≠ serviceDomain w ->
      item_serviceDomain (localStorage (setServiceAddress d w)) = Some d)).
Proof.
  intros Hreach Hfile.
  apply reachable_invariant in Hreach as (_ & Hurl & _).
  specialize (Hurl Hfile). split.
  - intros v Hv.
    assert (Hset : setThreshold v w = world_of (runDetection_begin (set_threshold v w))).
    { unfold setThreshold, handle, flush_watchers. simpl.
      rewrite (decide_True (P := serviceDomain w = serviceDomain w)) by reflexivity.
      rewrite (decide_False (P := imageUrl w = imageUrl w ∧ threshold w = v))
        by (intros [_ Heq]; now apply Hv).
      unfold watch_imageUrl_threshold. simpl.
      now rewrite (decide_False (P := imageUrl w = "")). }
    split; [exact Hset|]. rewrite Hset.
    exact (runDetection_begin_invocations (set_threshold v w)).
  - intros d. unfold setServiceAddress, handle, flush_watchers. simpl.
    rewrite (decide_True (P := imageUrl w = imageUrl w ∧ threshold w = threshold w))
      by now split.
    unfold watch_serviceDomain. simpl.
    destruct (decide (serviceDomain w = d)) as [Hsame|Hnew].
    + repeat split. intros _ Hd. now contradiction Hd.
    + destruct (decide (d = "")) as [He|Hne]; repeat split.
      intros Hd. now contradiction Hd.
Qed.

(** C2 at work on the page with a file. *)
Lemma setThreshold_retriggers_witness :
  invocations (setThreshold (of_Z 1) page_selected) = S (invocations page_selected) /\
  invocations (setServiceAddress "http://127.0.0.1:8000" page_selected)
    = invocations page_selected.
Proof.
  destruct (setThreshold_retriggers page_selected) as [Hthreshold Haddress];
    [reach_page_selected | discriminate |].
  split.
  - apply (Hthreshold (of_Z 1)). discriminate.
  - apply (Haddress "http://127.0.0.1:8000").
Defined.

(** ** Known addresses *)

Lemma storage_invariant_ext (w w' : World) :
  domainList w' = domainList w ->
  item_domainList (localStorage w') = item_domainList (localStorage w) ->
  storage_invariant w -> storage_invariant w'.
Proof.
  unfold storage_invariant, stored_domains. intros -> ->. exact id.
Qed.

Lemma addDomainToList_storage (w : World) :
  storage_invariant w -> storage_invariant (addDomainToList w).
Proof.
  intros Hinv. unfold addDomainToList. case_decide; [|exact Hinv].
  left. reflexivity.
Qed.

Lemma runDetection_begin_storage (w : World) :
  storage_invariant w -> storage_invariant (world_of (runDetection_begin w)).
Proof.
  intros Hinv. destruct (file w) as [f|] eqn:Hf.
  - destruct (decide (serviceDomain w = "")) as [Hd|Hd].
    + rewrite (runDetection_begin_empty_domain w f Hf Hd). exact Hinv.
    + rewrite (runDetection_begin_fetch w f Hf Hd).
      apply (storage_invariant_ext
               (addDomainToList (start_loading (set_invocations (S (invocations w)) w))));
        [reflexivity | reflexivity |].
      apply addDomainToList_storage. exact Hinv.
  - rewrite (runDetection_begin_no_file w Hf). exact Hinv.
Qed.

Lemma flush_watchers_storage (old new : World) :
  storage_invariant new -> storage_invariant (flush_watchers old new).
Proof.
  intros Hinv. unfold flush_watchers, watch_imageUrl_threshold, watch_serviceDomain.
  repeat case_decide; try exact Hinv; now apply runDetection_begin_storage.
Qed.

Lemma handler_storage (e : Event) (w : World) :
  storage_invariant w -> storage_invariant (handler e w).
Proof.
  intros Hinv. destruct e as [[f|] id|v|v| | |el|el|o]; simpl;
    try (apply runDetection_begin_storage; exact Hinv); try exact Hinv.
  destruct (runDetection_settle_frame o w) as (_ & _ & _ & _ & El & Es & _).
  apply (storage_invariant_ext w); [exact El | now rewrite Es | exact Hinv].
Qed.

Lemma mounted_storage (storage : Storage) : storage_invariant (mounted storage).
Proof.
  unfold mounted. apply flush_watchers_storage.
  change (watch_imageUrl_threshold (initial storage)) with (initial storage).
  unfold storage_invariant, stored_domains, onMounted.
  destruct storage as [last [[|d saved]|]]; simpl.
  - right. split; [reflexivity | eexists; reflexivity].
  - left. reflexivity.
  - right. split; [reflexivity | eexists; reflexivity].
Qed.

Lemma reachable_storage (w : World) : reachable w -> storage_invariant w.
Proof.
  induction 1 as [storage | w e _ IH _].
  - apply mounted_storage.
  - apply flush_watchers_storage, handler_storage, IH.
Qed.




(** ** Overlay rectangle *)

Lemma div_finite (a b : Qc) :
  b ≠ 0%Qc -> div (Finite a) (Finite b) = Finite (a / b)%Qc.
Proof. intros Hb. unfold div. now rewrite decide_False. Qed.

Lemma of_N_nonzero (n : N) : (0 < n)%N -> Qc_of_Z (Z.of_N n) ≠ 0%Qc.
Proof.
  intros Hn. rewrite <- Z2Qc_inj_0. intros H. apply Z2Qc_inj in H. lia.
Qed.

Lemma scale_finite (displayed : Z) (natural : N) :
  (0 < natural)%N ->
  div (of_Z displayed) (of_N natural) = Finite (ratio displayed natural).
Proof. intros Hn. apply div_finite. now apply of_N_nonzero. Qed.




(** ** Crop *)

Lemma of_Z_sub (a b : Z) : sub (of_Z a) (of_Z b) = of_Z (a - b).
Proof. unfold sub, of_Z. now rewrite Z2Qc_inj_sub. Qed.

Lemma of_Z_inj (a b : Z) : of_Z a = of_Z b -> a = b.
Proof.
  unfold of_Z. intros H. apply Z2Qc_inj.
  exact (f_equal (fun x => match x with Finite q => q | _ => 0%Qc end) H).
Qed.

Lemma reflected_of_Z (default n : Z) :
  (0 <= n <= 2147483647)%Z -> reflected default (of_Z n) = n.
Proof.
  intros Hn. unfold reflected, to_unsigned_long, of_Z. cbn [Qc_of_Z this inject_Z Qnum Qden].
  rewrite Z.quot_1_r, Z.mod_small by lia. now rewrite decide_True by lia.
Qed.

(** C3 as stated does not hold in its instance: the box
    [[10,20,110,220]] on a loaded 1000x1000 image gives a canvas of 100
    by 200, and 200 is not 220. *)
Lemma crop_of_sample_bbox_is_100_by_200 :
  let w := onImageLoad sample_image page_selected in
  naturalWidth sample_image = 1000%N /\ naturalHeight sample_image = 1000%N /\
  canvas_width <$> canvas_of (downloadCrop sample_bbox 0 w) = Some 100%Z /\
  canvas_height <$> canvas_of (downloadCrop sample_bbox 0 w) = Some 200%Z /\
  200%Z ≠ 220%Z.
Proof.
  cbv zeta. split; [reflexivity|]. split; [reflexivity|].
  split; [|split].
  - vm_compute. reflexivity.
  - vm_compute. reflexivity.
  - discriminate.
Qed.

(** C3, amended. With the source image loaded, [downloadCrop] on a box
    [[x1,y1,x2,y2]] of integers with [0 <= x1 <= x2], [0 <= y1 <= y2],
    none above 2147483647, makes a canvas of [x2-x1] by [y2-y1] pixels
    and draws on it, at the origin and at that size, the region of the
    image that starts at [(x1,y1)] and has that size; on
    [[10,20,110,220]] the canvas is 100 by 200. The canvas holds
    unsigned integers: a size of 100.25 gives 100 pixels, and a negative
    one the defaults 300 and 150. *)
Theorem downloadCrop_canvas_size
    (a1 b1 a2 b2 : Z) (index : nat) (w : World) (image : ImageElement) :
  originalImage w = Some image ->
  (0 <= a1 <= a2)%Z -> (0 <= b1 <= b2)%Z ->
  (a2 <= 2147483647)%Z -> (b2 <= 2147483647)%Z ->
  (exists c,
     canvas_of (downloadCrop
                  {| x1 := of_Z a1; y1 := of_Z b1; x2 := of_Z a2; y2 := of_Z b2 |}
                  index w) = Some c /\
     canvas_width c = (a2 - a1)%Z /\
     canvas_height c = (b2 - b1)%Z /\
     canvas_drawn c =
       {| draw_image := image;
          sx := of_Z a1; sy := of_Z b1;
          sw := of_Z (a2 - a1); sh := of_Z (b2 - b1);
          dx := of_Z 0; dy := of_Z 0;
          dw := of_Z (a2 - a1); dh := of_Z (b2 - b1) |} /\
     ((a1, b1, a2, b2) = (10, 20, 110, 220)%Z ->
      canvas_width c = 100%Z /\ canvas_height c = 200%Z)) /\
  reflected 300 (Finite (Qc_of_Z 401 / Qc_of_Z 4)%Qc) = 100%Z /\
  reflected 300 (of_Z (-5)) = 300%Z /\ reflected 150 (of_Z (-5)) = 150%Z.
Proof.
  intros Himage Ha Hb Ha2 Hb2. split; [|repeat split; vm_compute; reflexivity].
  unfold downloadCrop. rewrite Himage.
  eexists. split; [destruct (file w); reflexivity|].
  cbn [canvas_width canvas_height canvas_drawn x1 y1 x2 y2].
  rewrite !of_Z_sub, !reflected_of_Z by lia.
  repeat split; injection H as -> -> -> ->; reflexivity.
Qed.

(** C3 at work: the box [[10,20,110,220]] on a loaded 1000x1000 image. *)
Lemma downloadCrop_canvas_size_witness :
  exists c,
    canvas_of (downloadCrop sample_bbox 0 (onImageLoad sample_image page_selected)) = Some c /\
    canvas_width c = 100%Z /\ canvas_height c = 200%Z.
Proof.
  destruct (downloadCrop_canvas_size 10 20 110 220 0
              (onImageLoad sample_image page_selected) sample_image eq_refl)
    as ((c & Hc & _ & _ & _ & Hsize) & _); try lia.
  exists c. split; [exact Hc|]. now apply Hsize.
Defined.

(** * Further properties of the script *)

(** ** What one call of [runDetection] touches *)

Lemma addDomainToList_untouched (w : World) :
  pending (addDomainToList w) = pending w /\
  invocations (addDomainToList w) = invocations w /\
  originalImage (addDomainToList w) = originalImage w /\
  imagePreview (addDomainToList w) = imagePreview w /\
  item_serviceDomain (localStorage (addDomainToList w))
    = item_serviceDomain (localStorage w).
Proof. unfold addDomainToList. case_decide; repeat split. Qed.

(** The three ways [runDetection] reaches its first suspension. *)
Lemma runDetection_begin_cases (w : World) :
  (file w = None /\
   world_of (runDetection_begin w) = set_invocations (S (invocations w)) w) \/
  (exists f, file w = Some f /\ serviceDomain w = "" /\
   world_of (runDetection_begin w) =
     set_isLoading false
       (set_error MSG_EMPTY_DOMAIN
          (start_loading (set_invocations (S (invocations w)) w)))) \/
  (exists f, file w = Some f /\ serviceDomain w ≠ "" /\
   world_of (runDetection_begin w) =
     fetch (request_of f w)
       (addDomainToList (start_loading (set_invocations (S (invocations w)) w)))).
Proof.
  destruct (file w) as [f|] eqn:Hf.
  - right. destruct (decide (serviceDomain w = "")) as [Hd|Hd].
    + left. exists f. now rewrite (runDetection_begin_empty_domain w f Hf Hd).
    + right. exists f. now rewrite (runDetection_begin_fetch w f Hf Hd).
  - left. now rewrite (runDetection_begin_no_file w Hf).
Qed.

Lemma runDetection_begin_frame (w : World) :
  file (world_of (runDetection_begin w)) = file w /\
  imageUrl (world_of (runDetection_begin w)) = imageUrl w /\
  threshold (world_of (runDetection_begin w)) = threshold w /\
  serviceDomain (world_of (runDetection_begin w)) = serviceDomain w /\
  originalImage (world_of (runDetection_begin w)) = originalImage w /\
  imagePreview (world_of (runDetection_begin w)) = imagePreview w /\
  item_serviceDomain (localStorage (world_of (runDetection_begin w)))
    = item_serviceDomain (localStorage w).
Proof.
  destruct (runDetection_begin_cases w)
    as [[_ ->] | [(f & _ & _ & ->) | (f & _ & _ & ->)]];
    [repeat split | repeat split |].
  set (w1 := start_loading (set_invocations (S (invocations w)) w)).
  destruct (addDomainToList_frame w1) as (Hf & _ & Hu & Ht & _).
  destruct (addDomainToList_untouched w1) as (_ & _ & Ho & Hp & Hs).
  cbn [fetch file imageUrl threshold serviceDomain originalImage imagePreview
       localStorage set_pending set_network].
  rewrite Hf, Hu, Ht, addDomainToList_serviceDomain, Ho, Hp, Hs. repeat split.
Qed.

(** What a call that sends its request leaves behind. *)
Lemma runDetection_begin_sends (w : World) (f : File) :
  file w = Some f -> serviceDomain w ≠ "" ->
  network (world_of (runDetection_begin w)) = (network w ++ [request_of f w])%list /\
  pending (world_of (runDetection_begin w)) = S (pending w) /\
  invocations (world_of (runDetection_begin w)) = S (invocations w) /\
  isLoading (world_of (runDetection_begin w)) = true /\
  results (world_of (runDetection_begin w)) = Json (JArr []) /\
  error (world_of (runDetection_begin w)) = "".
Proof.
  intros Hf Hd. rewrite (runDetection_begin_fetch w f Hf Hd).
  set (w1 := start_loading (set_invocations (S (invocations w)) w)).
  destruct (addDomainToList_frame w1) as (_ & Hl & _ & _ & Hn & Hr & He).
  destruct (addDomainToList_untouched w1) as (Hp & Hi & _).
  cbn [world_of fetch network pending invocations isLoading results error
       set_pending set_network].
  rewrite Hn, Hp, Hi, Hl, Hr, He. repeat split.
Qed.

Lemma flush_watchers_same (w : World) : flush_watchers w w = w.
Proof.
  unfold flush_watchers.
  rewrite (decide_True (P := serviceDomain w = serviceDomain w)) by reflexivity.
  now rewrite (decide_True (P := imageUrl w = imageUrl w ∧ threshold w = threshold w)).
Qed.

(** ** The log and the loading flag *)

Lemma accounting_begin (w : World) :
  file w ≠ None -> accounting w -> accounting (world_of (runDetection_begin w)).
Proof.
  intros Hfile (Hp & Hn & Hl & _).
  destruct (runDetection_begin_frame w) as (Hf & _).
  unfold accounting. rewrite Hf.
  destruct (runDetection_begin_cases w)
    as [[Hnone _] | [(f & _ & _ & ->) | (f & Hsome & Hd & _)]].
  - contradiction.
  - cbn [pending network invocations isLoading set_isLoading set_error
         start_loading set_results set_invocations].
    refine (conj Hp (conj _ (conj _ _))); [lia | discriminate | contradiction].
  - destruct (runDetection_begin_sends w f Hsome Hd) as (-> & -> & -> & _).
    rewrite length_app. cbn [length].
    refine (conj _ (conj _ (conj _ _))); [lia | lia | lia | contradiction].
Qed.

Lemma accounting_not_idle (w : World) :
  accounting w ->
  imageUrl w ≠ "" \/ error w ≠ "" \/ 0 < pending w \/ isLoading w = true ->
  file w ≠ None.
Proof.
  intros (_ & _ & _ & Hidle) Hbusy Hnone.
  destruct (Hidle Hnone) as (_ & _ & Hp & _ & He & Hl & Hu & _).
  destruct Hbusy as [H | [H | [H | H]]]; [contradiction | contradiction | lia | congruence].
Qed.

Lemma accounting_settle (o : FetchResult) (w : World) :
  0 < pending w -> accounting w -> accounting (runDetection_settle o w).
Proof.
  intros Hpending Hacc.
  pose proof (accounting_not_idle w Hacc (or_intror (or_intror (or_introl Hpending))))
    as Hfile.
  destruct Hacc as (Hp & Hn & _ & _).
  destruct (runDetection_settle_frame o w) as (Hf & _ & _ & _ & _ & _ & Hnet & Hi).
  unfold accounting. rewrite Hf, Hnet, Hi, runDetection_settle_isLoading.
  assert (Hpred : pending (runDetection_settle o w) = pred (pending w)).
  { unfold runDetection_settle, assign_results, catch.
    destruct (receive o) as [e|data]; [reflexivity|].
    destruct (index0 data) as [e|v]; [reflexivity|].
    destruct (strict_eq_zero (length_of data)); reflexivity. }
  rewrite Hpred. refine (conj _ (conj Hn (conj _ _))); [lia | discriminate | contradiction].
Qed.

Lemma accounting_watch_serviceDomain (w : World) :
  accounting w -> accounting (watch_serviceDomain w).
Proof. intros Hacc. unfold watch_serviceDomain. case_decide; exact Hacc. Qed.

Lemma accounting_watch_imageUrl_threshold (w : World) :
  accounting w -> accounting (watch_imageUrl_threshold w).
Proof.
  intros Hacc. unfold watch_imageUrl_threshold.
  case_decide as Hu; [exact Hacc|].
  apply accounting_begin; [|exact Hacc].
  apply (accounting_not_idle w Hacc). now left.
Qed.

Lemma accounting_flush_watchers (old new : World) :
  accounting new -> accounting (flush_watchers old new).
Proof.
  intros Hacc. unfold flush_watchers.
  repeat case_decide;
    auto using accounting_watch_serviceDomain, accounting_watch_imageUrl_threshold.
Qed.

Lemma accounting_handler (e : Event) (w : World) :
  enabled e w = true -> accounting w -> accounting (handler e w).
Proof.
  intros Hen Hacc.
  destruct e as [[f|] id|v|v| | |el|el|o]; cbn [handler enabled] in *.
  - destruct Hacc as (Hp & Hn & Hl & _).
    refine (conj Hp (conj Hn (conj Hl _))). discriminate.
  - exact Hacc.
  - exact Hacc.
  - exact Hacc.
  - apply andb_prop in Hen as [Hfile _]. apply bool_decide_eq_true in Hfile.
    now apply accounting_begin.
  - apply bool_decide_eq_true in Hen.
    apply accounting_begin; [|exact Hacc].
    apply (accounting_not_idle w Hacc). right. now left.
  - apply bool_decide_eq_true in Hen.
    pose proof (accounting_not_idle w Hacc (or_introl Hen)) as Hfile.
    destruct Hacc as (Hp & Hn & Hl & _).
    refine (conj Hp (conj Hn (conj Hl _))). contradiction.
  - apply bool_decide_eq_true in Hen.
    pose proof (accounting_not_idle w Hacc (or_introl Hen)) as Hfile.
    destruct Hacc as (Hp & Hn & Hl & _).
    refine (conj Hp (conj Hn (conj Hl _))). contradiction.
  - apply bool_decide_eq_true in Hen. now apply accounting_settle.
Qed.

Lemma accounting_mounted (storage : Storage) : accounting (mounted storage).
Proof.
  unfold mounted. apply accounting_flush_watchers.
  change (watch_imageUrl_threshold (initial storage)) with (initial storage).
  unfold onMounted.
  case_decide; unfold accounting, idle; cbn; repeat split; try lia; discriminate.
Qed.

Lemma reachable_accounting (w : World) : reachable w -> accounting w.
Proof.
  induction 1 as [storage | w e _ IH Hen].
  - apply accounting_mounted.
  - apply accounting_flush_watchers, accounting_handler; assumption.
Qed.

(** Until a file is picked nothing happens: [runDetection] was never
    called, no request was sent, and the page shows no result, no error,
    no spinner and no image. *)
Theorem nothing_before_a_file (w : World) :
  reachable w -> file w = None ->
  invocations w = 0 /\ network w = [] /\ pending w = 0 /\
  results w = Json (JArr []) /\ error w = "" /\ isLoading w = false /\
  imageUrl w = "" /\ originalImage w = None /\ imagePreview w = None /\
  enabled RefreshClick w = false /\ enabled RetryClick w = false.
Proof.
  intros Hreach Hnone.
  destruct (reachable_accounting w Hreach) as (_ & _ & _ & Hidle).
  destruct (Hidle Hnone) as (Hi & Hn & Hp & Hr & He & Hl & Hu & Ho & Hv).
  repeat split; try assumption.
  - cbn [enabled]. rewrite Hnone. reflexivity.
  - cbn [enabled]. rewrite He. reflexivity.
Qed.

(** The same after an address was typed and the slider moved on the
    fresh page. *)
Lemma nothing_before_a_file_witness :
  invocations (setThreshold (of_Z 1) (setServiceAddress "http://10.0.0.2" page_mounted)) = 0 /\
  network (setThreshold (of_Z 1) (setServiceAddress "http://10.0.0.2" page_mounted)) = [].
Proof.
  destruct (nothing_before_a_file
              (setThreshold (of_Z 1) (setServiceAddress "http://10.0.0.2" page_mounted)))
    as (Hi & Hn & _).
  - apply (reachable_step _ (ThresholdInput (of_Z 1))); [|reflexivity].
    apply (reachable_step _ (DomainInput "http://10.0.0.2")); [|reflexivity].
    apply reachable_mounted.
  - reflexivity.
  - split; assumption.
Defined.

(** ** What a response does to the session *)

Lemma runDetection_settle_pending (o : FetchResult) (w : World) :
  pending (runDetection_settle o w) = pred (pending w).
Proof.
  unfold runDetection_settle, assign_results, catch.
  destruct (receive o) as [e|data]; [reflexivity|].
  destruct (index0 data) as [e|v]; [reflexivity|].
  destruct (strict_eq_zero (length_of data)); reflexivity.
Qed.

(** A response that is taken without an exception: the value it puts in
    [results], and whether it sets the notice. *)
Lemma runDetection_settle_taken (o : FetchResult) (w : World) :
  thrown o = None ->
  exists data first,
    receive o = inr data /\ index0 data = inr first /\
    results (runDetection_settle o w) = first /\
    error (runDetection_settle o w) =
      (if strict_eq_zero (length_of data) then MSG_NO_TARGET else error w).
Proof.
  unfold thrown, runDetection_settle, assign_results. intros Hthrown.
  destruct (receive o) as [e|data]; [discriminate|].
  destruct (index0 data) as [e|first] eqn:Hidx; [discriminate|].
  exists data, first.
  split; [reflexivity|]. split; [exact Hidx|].
  destruct (strict_eq_zero (length_of data)); split; reflexivity.
Qed.

(** Responses are not matched with requests: a response taken without an
    exception overwrites [results] whatever came before, so of two
    responses the one that settles last decides what is shown; it does
    not clear an [error] that an earlier response left, unless to set
    the notice. A response that ends in an exception overwrites [error]
    and keeps the [results] of the earlier one. *)
Theorem last_response_wins (o1 o2 : FetchResult) (w : World) :
  (thrown o2 = None ->
     results (runDetection_settle o2 (runDetection_settle o1 w))
       = results (runDetection_settle o2 w) /\
     (error (runDetection_settle o2 (runDetection_settle o1 w)) = MSG_NO_TARGET \/
      error (runDetection_settle o2 (runDetection_settle o1 w))
        = error (runDetection_settle o1 w))) /\
  (forall e, thrown o2 = Some e ->
     results (runDetection_settle o2 (runDetection_settle o1 w))
       = results (runDetection_settle o1 w) /\
     error (runDetection_settle o2 (runDetection_settle o1 w))
       = (if decide (message e = "") then MSG_UNKNOWN else message e)).
Proof.
  split.
  - intros Hthrown.
    destruct (runDetection_settle_taken o2 (runDetection_settle o1 w) Hthrown)
      as (data & first & Hrec & Hidx & Hres & Herr).
    destruct (runDetection_settle_taken o2 w Hthrown)
      as (data' & first' & Hrec' & Hidx' & Hres' & _).
    rewrite Hrec in Hrec'. injection Hrec' as <-.
    rewrite Hidx in Hidx'. injection Hidx' as <-.
    split; [now rewrite Hres, Hres'|].
    rewrite Herr. destruct (strict_eq_zero (length_of data)); [now left | now right].
  - intros e Hthrown.
    rewrite (runDetection_settle_thrown o2 e _ Hthrown). split; reflexivity.
Qed.

(** Two batches answered out of order, and a failure after a success. *)
Lemma last_response_wins_witness :
  results (runDetection_settle (ok_response (JArr [JArr [JStr "late"]]))
             (runDetection_settle (ok_response (JArr [JArr [JStr "early"]])) page_selected))
    = Json (JArr [JStr "late"]) /\
  results (runDetection_settle (FetchRejected (Error "Failed to fetch"))
             (runDetection_settle (ok_response (JArr [JArr [JStr "early"]])) page_selected))
    = Json (JArr [JStr "early"]).
Proof.
  split.
  - rewrite (proj1 (proj1 (last_response_wins
               (ok_response (JArr [JArr [JStr "early"]]))
               (ok_response (JArr [JArr [JStr "late"]])) page_selected) eq_refl)).
    reflexivity.
  - rewrite (proj1 (proj2 (last_response_wins
               (ok_response (JArr [JArr [JStr "early"]]))
               (FetchRejected (Error "Failed to fetch")) page_selected)
               (Error "Failed to fetch") eq_refl)).
    reflexivity.
Defined.

(** With two requests in flight the first response lowers the spinner
    although the other request is still awaited. *)
Theorem spinner_drops_at_first_response (o : FetchResult) (w : World) :
  2 <= pending w ->
  enabled (FetchSettled o) w = true /\
  isLoading (handle (FetchSettled o) w) = false /\
  0 < pending (handle (FetchSettled o) w).
Proof.
  intros Hp.
  destruct (runDetection_settle_frame o w) as (_ & Hu & Ht & Hd & _).
  assert (Hflush : handle (FetchSettled o) w = runDetection_settle o w).
  { unfold handle, flush_watchers. cbn [handler].
    rewrite Hu, Ht, Hd.
    rewrite (decide_True (P := serviceDomain w = serviceDomain w)) by reflexivity.
    now rewrite (decide_True (P := imageUrl w = imageUrl w ∧ threshold w = threshold w)). }
  rewrite Hflush, runDetection_settle_pending, runDetection_settle_isLoading.
  repeat split; [|lia].
  cbn [enabled]. apply bool_decide_eq_true. lia.
Qed.

(** A file is picked, the slider is moved while the first request is in
    flight, and one response arrives. *)
Lemma spinner_drops_at_first_response_witness :
  pending (setThreshold (of_Z 1) page_selected) = 2 /\
  isLoading (handle (FetchSettled (ok_response (JArr [JArr []])))
               (setThreshold (of_Z 1) page_selected)) = false /\
  0 < pending (handle (FetchSettled (ok_response (JArr [JArr []])))
                 (setThreshold (of_Z 1) page_selected)).
Proof.
  assert (Hp : pending (setThreshold (of_Z 1) page_selected) = 2) by (vm_compute; reflexivity).
  split; [exact Hp|].
  apply (spinner_drops_at_first_response (ok_response (JArr [JArr []]))
           (setThreshold (of_Z 1) page_selected)).
  rewrite Hp. lia.
Defined.

Lemma string_app_assoc (a b c : string) : (a ++ b) ++ c = a ++ b ++ c.
Proof. induction a as [|ch a IH]; [reflexivity | exact (f_equal (String ch) IH)]. Qed.

(** A status outside 200-299 whose body reads as [errorText] ends the
    call with the message [API 错误: status statusText - errorText], which
    holds the status and ends with the body; [results] is not touched and
    the spinner is lowered. *)
Theorem service_error_message (r : Response) (errorText : string) (w : World) :
  ok r = false -> text r = Resolved errorText ->
  error (runDetection_settle (FetchResolved r) w) =
    "API 错误: " ++ pretty (status r) ++ " " ++ statusText r ++ " - " ++ errorText /\
  (exists before, error (runDetection_settle (FetchResolved r) w) = before ++ errorText) /\
  (exists before after,
     error (runDetection_settle (FetchResolved r) w) = before ++ pretty (status r) ++ after) /\
  results (runDetection_settle (FetchResolved r) w) = results w /\
  isLoading (runDetection_settle (FetchResolved r) w) = false.
Proof.
  intros Hok Htext.
  assert (Hthrown : thrown (FetchResolved r) = Some (Error (MSG_API r errorText))).
  { unfold thrown. cbn [receive]. now rewrite Hok, Htext. }
  rewrite (runDetection_settle_thrown _ _ w Hthrown).
  assert (Herr : error (set_isLoading false
                   (catch (Error (MSG_API r errorText)) (set_pending (pred (pending w)) w)))
                 = MSG_API r errorText) by reflexivity.
  rewrite Herr. unfold MSG_API.
  split; [reflexivity|]. split; [|split; [|split; reflexivity]].
  - exists ("API 错误: " ++ pretty (status r) ++ " " ++ statusText r ++ " - ").
    now rewrite !string_app_assoc.
  - exists "API 错误: ", (" " ++ statusText r ++ " - " ++ errorText). reflexivity.
Qed.

(** Status 500 with the body [boom]. *)
Lemma service_error_message_witness :
  error (runDetection_settle
           (FetchResolved {| status := 500; statusText := "Internal Server Error";
                             text := Resolved "boom";
                             json_body := Rejected (Error "Unexpected token b") |})
           page_selected)
    = "API 错误: 500 Internal Server Error - boom".
Proof.
  apply (service_error_message
           {| status := 500; statusText := "Internal Server Error";
              text := Resolved "boom";
              json_body := Rejected (Error "Unexpected token b") |}
           "boom" page_selected); reflexivity.
Defined.



(** ** What triggers a detection *)







(** ** The watchers, event by event *)

(** What an event does once the watchers have run: only a new preview
    URL or a new threshold (with an image present) calls [runDetection],
    and only a new address runs the watcher of [serviceDomain]. *)
Lemma handle_unfold (e : Event) (w : World) :
  handle e w =
    match e with
    | FileChange (Some f) id =>
        if decide (createObjectURL id = imageUrl w) then handleFileChange (Some f) id w
        else world_of (runDetection_begin (handleFileChange (Some f) id w))
    | FileChange None _ => w
    | ThresholdInput v =>
        if decide (v = threshold w \/ imageUrl w = "") then set_threshold v w
        else world_of (runDetection_begin (set_threshold v w))
    | DomainInput v =>
        if decide (v = serviceDomain w) then set_serviceDomain v w
        else watch_serviceDomain (set_serviceDomain v w)
    | RefreshClick | RetryClick => world_of (runDetection_begin w)
    | ImageLoad target => onImageLoad target w
    | PreviewBound el => set_imagePreview (Some el) w
    | FetchSettled o => runDetection_settle o w
    end.
Proof.
  assert (Hquiet : forall new,
            serviceDomain new = serviceDomain w -> imageUrl new = imageUrl w ->
            threshold new = threshold w -> flush_watchers w new = new).
  { intros new Hd Hu Ht. unfold flush_watchers. rewrite Hd, Hu, Ht.
    rewrite (decide_True (P := serviceDomain w = serviceDomain w)) by reflexivity.
    now rewrite (decide_True (P := imageUrl w = imageUrl w ∧ threshold w = threshold w)). }
  unfold handle. destruct e as [[f|] id|v|v| | |el|el|o]; cbn [handler].
  - unfold flush_watchers.
    rewrite (decide_True
               (P := serviceDomain w = serviceDomain (handleFileChange (Some f) id w)))
      by reflexivity.
    unfold watch_imageUrl_threshold.
    rewrite (decide_False (P := imageUrl (handleFileChange (Some f) id w) = ""))
      by discriminate.
    cbn [imageUrl threshold handleFileChange set_error set_results set_imageUrl set_file].
    destruct (decide (createObjectURL id = imageUrl w)) as [Heq|Hne].
    + now rewrite decide_True by (split; [now rewrite Heq | reflexivity]).
    + now rewrite decide_False by (intros [Heq _]; now apply Hne).
  - apply flush_watchers_same.
  - unfold flush_watchers.
    rewrite (decide_True (P := serviceDomain w = serviceDomain (set_threshold v w)))
      by reflexivity.
    unfold watch_imageUrl_threshold.
    cbn [imageUrl threshold set_threshold].
    destruct (decide (v = threshold w)) as [Heq|Hne].
    + rewrite (decide_True (P := imageUrl w = imageUrl w ∧ threshold w = v))
        by (split; [reflexivity | now rewrite Heq]).
      now rewrite (decide_True (P := v = threshold w \/ imageUrl w = "")) by now left.
    + rewrite (decide_False (P := imageUrl w = imageUrl w ∧ threshold w = v))
        by (intros [_ Heq]; now apply Hne).
      destruct (decide (imageUrl w = "")) as [Hu|Hu].
      * now rewrite (decide_True (P := v = threshold w \/ imageUrl w = "")) by now right.
      * now rewrite (decide_False (P := v = threshold w \/ imageUrl w = ""))
          by (intros [H|H]; contradiction).
  - unfold flush_watchers. cbn [serviceDomain imageUrl threshold set_serviceDomain].
    rewrite (decide_True (P := imageUrl w = imageUrl w ∧ threshold w = threshold w))
      by now split.
    destruct (decide (v = serviceDomain w)) as [Heq|Hne].
    + now rewrite (decide_True (P := serviceDomain w = v)).
    + now rewrite (decide_False (P := serviceDomain w = v)) by (intros Heq; now apply Hne).
  - destruct (runDetection_begin_frame w) as (_ & Hu & Ht & Hd & _). now apply Hquiet.
  - destruct (runDetection_begin_frame w) as (_ & Hu & Ht & Hd & _). now apply Hquiet.
  - now apply Hquiet.
  - now apply Hquiet.
  - destruct (runDetection_settle_frame o w) as (_ & Hu & Ht & Hd & _). now apply Hquiet.
Qed.

(** ** The list of known addresses *)

Lemma runDetection_begin_domainList (w : World) :
  grows_by (serviceDomain w) (domainList w) (domainList (world_of (runDetection_begin w))).
Proof.
  destruct (runDetection_begin_cases w)
    as [[_ ->] | [(f & _ & _ & ->) | (f & _ & Hd & ->)]]; [now left | now left |].
  set (w1 := start_loading (set_invocations (S (invocations w)) w)).
  cbn [fetch domainList set_pending set_network].
  destruct (decide (serviceDomain w ∈ domainList w)) as [Hin|Hnotin].
  - left. now rewrite (addDomainToList_noop w1) by (right; exact Hin).
  - right. now rewrite (addDomainToList_new w1 Hd Hnotin).
Qed.

(** No event removes or reorders a known address: an event leaves
    [domainList] as it is or appends the current address, which is then
    non-empty and was not in the list; so the list stays free of
    repetitions and keeps its old entries in front. *)
Theorem known_addresses_only_grow (e : Event) (w : World) :
  grows_by (serviceDomain w) (domainList w) (domainList (handle e w)) /\
  domainList w `prefix_of` domainList (handle e w) /\
  (NoDup (domainList w) -> NoDup (domainList (handle e w))).
Proof.
  assert (Hgrow : grows_by (serviceDomain w) (domainList w) (domainList (handle e w))).
  { rewrite handle_unfold.
    destruct e as [[f|] id|v|v| | |el|el|o]; try (now left);
      try apply runDetection_begin_domainList.
    - case_decide; [now left|].
      apply (runDetection_begin_domainList (handleFileChange (Some f) id w)).
    - case_decide; [now left|].
      apply (runDetection_begin_domainList (set_threshold v w)).
    - unfold watch_serviceDomain. repeat case_decide; now left.
    - left. apply (runDetection_settle_frame o w). }
  split; [exact Hgrow|].
  destruct Hgrow as [-> | (Hne & Hnotin & ->)].
  - split; [reflexivity | exact id].
  - split; [now apply prefix_app_r|].
    intros Hnodup. apply NoDup_app. split; [exact Hnodup|].
    split; [|apply NoDup_singleton].
    intros x Hx Hx'. apply list_elem_of_singleton in Hx'. now subst x.
Qed.

(** An address typed on the page with a file is appended by the next
    detection and by nothing before it. *)
Lemma known_addresses_only_grow_witness :
  domainList (setServiceAddress "http://10.0.0.2" page_selected) = domainList page_selected /\
  domainList (setThreshold (of_Z 1) (setServiceAddress "http://10.0.0.2" page_selected))
    = [DEFAULT_DOMAIN; "http://10.0.0.2"] /\
  NoDup (domainList (setThreshold (of_Z 1) (setServiceAddress "http://10.0.0.2" page_selected))).
Proof.
  split; [reflexivity|]. split; [vm_compute; reflexivity|].
  apply (proj2 (proj2 (known_addresses_only_grow (ThresholdInput (of_Z 1))
                         (setServiceAddress "http://10.0.0.2" page_selected)))).
  change (NoDup [DEFAULT_DOMAIN]). apply NoDup_singleton.
Defined.

(** ** Addresses across a reload *)

Lemma onMounted_serviceDomain (storage : Storage) :
  serviceDomain (onMounted (initial storage)) ≠ "".
Proof.
  unfold onMounted. cbn.
  destruct (item_serviceDomain storage) as [s|]; [|unfold DEFAULT_DOMAIN; discriminate].
  case_decide; [unfold DEFAULT_DOMAIN; discriminate | assumption].
Qed.

(** The page as mounted: the second watcher is silent, the first one
    stores the address [onMounted] resolved. *)
Lemma mounted_unfold (storage : Storage) :
  mounted storage = watch_serviceDomain (onMounted (initial storage)).
Proof.
  unfold mounted.
  change (watch_imageUrl_threshold (initial storage)) with (initial storage).
  unfold flush_watchers.
  pose proof (onMounted_serviceDomain storage) as Hd.
  rewrite (decide_False
             (P := serviceDomain (initial storage) = serviceDomain (onMounted (initial storage))))
    by (intros Heq; apply Hd; now rewrite <- Heq).
  assert (Hu : imageUrl (initial storage) = imageUrl (onMounted (initial storage))
               ∧ threshold (initial storage) = threshold (onMounted (initial storage))).
  { unfold onMounted. case_decide; now split. }
  now rewrite decide_True by exact Hu.
Qed.

(** What a page mounted on a storage with a non-empty last-used address
    [s] starts from: that address, and the stored list, or [[s]] when no
    list is stored. *)
Lemma mounted_addresses (storage : Storage) (s : string) :
  item_serviceDomain storage = Some s -> s ≠ "" ->
  serviceDomain (mounted storage) = s /\
  domainList (mounted storage) =
    (if decide (default [] (item_domainList storage) = []) then [s]
     else default [] (item_domainList storage)) /\
  localStorage (mounted storage) = storage.
Proof.
  intros Hs Hne. rewrite mounted_unfold.
  unfold watch_serviceDomain, onMounted. cbn [localStorage initial].
  rewrite Hs, (decide_False (P := s = "")) by exact Hne.
  destruct storage as [last saved]. cbn in Hs. subst last.
  destruct saved as [[|d saved]|]; cbn;
    rewrite (decide_False (P := s = "")) by exact Hne; repeat split.
Qed.

Lemma last_used_mounted (storage : Storage) : last_used (mounted storage).
Proof.
  rewrite mounted_unfold. unfold last_used, watch_serviceDomain.
  pose proof (onMounted_serviceDomain storage) as Hd.
  rewrite (decide_False (P := serviceDomain (onMounted (initial storage)) = "")) by exact Hd.
  exists (serviceDomain (onMounted (initial storage))).
  split; [reflexivity|]. split; [exact Hd | now left].
Qed.

Lemma last_used_ext (w w' : World) :
  serviceDomain w' = serviceDomain w ->
  item_serviceDomain (localStorage w') = item_serviceDomain (localStorage w) ->
  last_used w -> last_used w'.
Proof. unfold last_used. intros -> ->. exact id. Qed.

Lemma last_used_handle (e : Event) (w : World) : last_used w -> last_used (handle e w).
Proof.
  intros Hlast. rewrite handle_unfold.
  assert (Hbegin : forall w0, last_used w0 -> last_used (world_of (runDetection_begin w0))).
  { intros w0. destruct (runDetection_begin_frame w0) as (_ & _ & _ & Hd & _ & _ & Hs).
    now apply last_used_ext. }
  destruct e as [[f|] id|v|v| | |el|el|o]; try exact Hlast; try (now apply Hbegin).
  - case_decide; [exact Hlast | now apply Hbegin].
  - case_decide; [exact Hlast | now apply Hbegin].
  - destruct Hlast as (s & Hs & Hne & Hcur).
    case_decide as Heq.
    + exists s. subst v. now repeat split.
    + unfold watch_serviceDomain. cbn [serviceDomain set_serviceDomain].
      destruct (decide (v = "")) as [Hv|Hv].
      * exists s. subst v. split; [exact Hs|]. split; [exact Hne | now right].
      * exists v. split; [reflexivity|]. split; [exact Hv | now left].
  - destruct (runDetection_settle_frame o w) as (_ & _ & _ & Hd & _ & Hs & _).
    apply (last_used_ext w); [exact Hd | now rewrite Hs | exact Hlast].
Qed.

Lemma reachable_last_used (w : World) : reachable w -> last_used w.
Proof.
  induction 1 as [storage | w e _ IH _].
  - apply last_used_mounted.
  - now apply last_used_handle.
Qed.

Lemma reachable_domainList_nonempty (w : World) : reachable w -> domainList w ≠ [].
Proof.
  induction 1 as [storage | w e _ IH _].
  - rewrite mounted_unfold.
    assert (Hw : forall x, domainList (watch_serviceDomain x) = domainList x)
      by (intros x; unfold watch_serviceDomain; case_decide; reflexivity).
    rewrite Hw. unfold onMounted. cbn [localStorage initial].
    destruct (default [] (item_domainList storage)) as [|d saved];
      case_decide as Hlen; cbn; try discriminate.
    cbn in Hlen. lia.
  - destruct (known_addresses_only_grow e w) as ([-> | (_ & _ & ->)] & _);
      [exact IH|].
    intros Hnil. now apply app_eq_nil in Hnil as [_ Hnil].
Qed.



(** ** The download *)

(** The base of a file name: the part before the first dot. It holds no
    dot, the name is the base followed by nothing or by a dot and the
    rest, a name without a dot is its own base, and taking the base
    twice changes nothing. *)
Theorem before_first_dot_is_the_base (s : string) :
  (forall c, In c (list_ascii_of_string (before_first_dot s)) -> c ≠ "."%char) /\
  (exists rest, s = before_first_dot s ++ rest /\
                (rest = "" \/ exists r, rest = String "."%char r)) /\
  ((forall c, In c (list_ascii_of_string s) -> c ≠ "."%char) -> before_first_dot s = s) /\
  before_first_dot (before_first_dot s) = before_first_dot s.
Proof.
  induction s as [|ch s (IHnodot & (rest & IHsplit & IHrest) & IHsame & IHidem)].
  - repeat split; try reflexivity; [intros c []|].
    exists "". split; [reflexivity | now left].
  - cbn [before_first_dot].
    destruct (decide (ch = "."%char)) as [->|Hch].
    + repeat split; try reflexivity.
      * intros c [].
      * exists (String "."%char s). split; [reflexivity | right; now exists s].
      * intros Hnodot. exfalso. apply (Hnodot "."%char); [now left | reflexivity].
    + repeat split.
      * intros c [<- | Hin]; [exact Hch | now apply IHnodot].
      * exists rest. split; [exact (f_equal (String ch) IHsplit) | exact IHrest].
      * intros Hnodot. f_equal. apply IHsame. intros c Hin. apply Hnodot. now right.
      * cbn [before_first_dot]. rewrite (decide_False (P := ch = "."%char)) by exact Hch.
        now rewrite IHidem.
Qed.



(** A name without a dot is kept whole. *)
Lemma before_first_dot_is_the_base_witness : before_first_dot "README" = "README".
Proof.
  apply (proj1 (proj2 (proj2 (before_first_dot_is_the_base "README")))).
  intros c Hin. cbn in Hin.
  repeat (destruct Hin as [<- | Hin]; [discriminate|]). destruct Hin.
Defined.

(** ** The overlay without a natural size *)

(** Nothing guards the division: for an image element whose natural
    width is zero while it is displayed with a positive width the
    horizontal scale is [Infinity], so the width of the rectangle for a
    finite box with [x1 < x2] is [Infinity], and its left edge is
    [Infinity] for a positive [x1] and [NaN] for [x1 = 0]. *)
Theorem overlay_of_zero_natural_width (a1 b1 a2 b2 : Qc) (p o : ImageElement) :
  naturalWidth o = 0%N -> (0 < clientWidth p)%Z ->
  (0 <= a1)%Qc -> (a1 < a2)%Qc ->
  exists t ht,
    computeOverlayRect
      {| x1 := Finite a1; y1 := Finite b1; x2 := Finite a2; y2 := Finite b2 |}
      (Some p) (Some o)
      = RectStyle {| css_left := (if decide (a1 = 0%Qc) then NaN else Infinity false);
                     css_top := t;
                     css_width := Infinity false;
                     css_height := ht |}.
Proof.
  intros Hn Hc Ha1 Ha12.
  assert (Hcpos : (0 < Qc_of_Z (clientWidth p))%Qc).
  { rewrite <- Z2Qc_inj_0. now apply (proj1 (Z2Qc_inj_lt _ _)). }
  assert (Hscale : scaleX p o = Infinity false).
  { unfold scaleX, div, of_Z, of_N. rewrite Hn.
    change (Qc_of_Z (Z.of_N 0)) with (Qc_of_Z 0). rewrite Z2Qc_inj_0.
    rewrite (decide_True (P := 0%Qc = 0%Qc)) by reflexivity.
    unfold sign.
    rewrite (decide_False (P := Qc_of_Z (clientWidth p) = 0%Qc))
      by (intros Heq; rewrite Heq in Hcpos; now apply (Qclt_not_eq 0 0)).
    now rewrite (decide_True (P := (0 < Qc_of_Z (clientWidth p))%Qc)). }
  assert (Hdiff : (0 < a2 - a1)%Qc) by now apply (proj1 (Qclt_minus_iff a1 a2)).
  do 2 eexists. unfold computeOverlayRect. rewrite Hscale.
  cbn [x1 x2 sub mul sign].
  rewrite (decide_False (P := (a2 - a1)%Qc = 0%Qc))
    by (intros Heq; rewrite Heq in Hdiff; now apply (Qclt_not_eq 0 0)).
  rewrite (decide_True (P := (0 < a2 - a1)%Qc)) by exact Hdiff.
  destruct (decide (a1 = 0%Qc)) as [Hz|Hz].
  - reflexivity.
  - rewrite (decide_True (P := (0 < a1)%Qc)); [reflexivity|].
    apply Qcle_lt_or_eq in Ha1 as [Hlt|Heq]; [exact Hlt | now contradiction Hz].
Qed.

(** An element without natural width, shown 300 wide. *)
Lemma overlay_of_zero_natural_width_witness :
  exists t ht,
    computeOverlayRect sample_bbox
      (Some {| clientWidth := 300; clientHeight := 150;
               naturalWidth := 0; naturalHeight := 0 |})
      (Some {| clientWidth := 300; clientHeight := 150;
               naturalWidth := 0; naturalHeight := 0 |})
      = RectStyle {| css_left := Infinity false; css_top := t;
                     css_width := Infinity false; css_height := ht |}.
Proof.
  destruct (overlay_of_zero_natural_width
              (Qc_of_Z 10) (Qc_of_Z 20) (Qc_of_Z 110) (Qc_of_Z 220)
              {| clientWidth := 300; clientHeight := 150;
                 naturalWidth := 0; naturalHeight := 0 |}
              {| clientWidth := 300; clientHeight := 150;
                 naturalWidth := 0; naturalHeight := 0 |})
    as (t & ht & Hrect).
  - reflexivity.
  - cbn. lia.
  - rewrite <- Z2Qc_inj_0. apply (proj1 (Z2Qc_inj_le 0 10)). lia.
  - apply (proj1 (Z2Qc_inj_lt 10 110)). lia.
  - exists t, ht. unfold sample_bbox, of_Z. rewrite Hrect.
    rewrite (decide_False (P := Qc_of_Z 10 = 0%Qc)); [reflexivity|].
    rewrite <- Z2Qc_inj_0. intros Heq. apply Z2Qc_inj in Heq. discriminate.
Defined.

(** ** The decoded body *)

(** A 2xx response whose body is an array with a first element puts
    that element in [results], whatever follows it in the array, lowers
    the spinner and leaves [error] as it finds it. So a call with a file
    and a non-empty address during which nothing else happens ends with
    that element as [results], no message, and its one request sent and
    settled; a message that another call left in between stays. *)
Theorem detections_are_the_first_batch
    (w : World) (f : File) (r : Response) (first : json) (rest : list json) :
  file w = Some f -> serviceDomain w ≠ "" ->
  ok r = true -> json_body r = Resolved (JArr (first :: rest)) ->
  (forall w0,
     results (runDetection_settle (FetchResolved r) w0) = Json first /\
     error (runDetection_settle (FetchResolved r) w0) = error w0 /\
     isLoading (runDetection_settle (FetchResolved r) w0) = false) /\
  results (runDetection (FetchResolved r) w) = Json first /\
  error (runDetection (FetchResolved r) w) = "" /\
  isLoading (runDetection (FetchResolved r) w) = false /\
  network (runDetection (FetchResolved r) w) = (network w ++ [request_of f w])%list /\
  pending (runDetection (FetchResolved r) w) = pending w.
Proof.
  intros Hf Hd Hok Hj.
  split; [intros w0; now rewrite (runDetection_settle_array r _ w0 Hok Hj)|].
  destruct (runDetection_begin_sends w f Hf Hd) as (Hn & Hp & _ & _ & _ & He).
  unfold runDetection.
  destruct (runDetection_begin w) as [w'|w'] eqn:Hb.
  - rewrite (runDetection_begin_fetch w f Hf Hd) in Hb. discriminate.
  - cbn [world_of] in Hn, Hp, He.
    destruct (runDetection_settle_frame (FetchResolved r) w') as (_ & _ & _ & _ & _ & _ & Hnet & _).
    rewrite Hnet, Hn, runDetection_settle_pending, Hp.
    rewrite (runDetection_settle_array r _ w' Hok Hj).
    cbn. rewrite He. repeat split.
Qed.

(** One detection in the first batch and a second batch after it; and
    the same response after a failure of an overlapping call. *)
Lemma detections_are_the_first_batch_witness :
  results (runDetection
             (ok_response (JArr [JArr [JObj [("class_name", JStr "seal")]]; JArr []]))
             page_selected)
    = Json (JArr [JObj [("class_name", JStr "seal")]]) /\
  error (runDetection_settle
           (ok_response (JArr [JArr [JObj [("class_name", JStr "seal")]]; JArr []]))
           (runDetection_settle (FetchRejected (Error "Failed to fetch"))
              (setThreshold (of_Z 1) page_selected)))
    = "Failed to fetch".
Proof.
  destruct (detections_are_the_first_batch page_selected sample_file
           {| status := 200; statusText := "OK"; text := Resolved "";
              json_body := Resolved (JArr [JArr [JObj [("class_name", JStr "seal")]]; JArr []]) |}
           (JArr [JObj [("class_name", JStr "seal")]]) [JArr []])
    as (Hany & Hres & _).
  - reflexivity.
  - unfold page_selected. cbn. discriminate.
  - reflexivity.
  - reflexivity.
  - split; [exact Hres|].
    refine (eq_trans (proj1 (proj2 (Hany _))) _). vm_compute. reflexivity.
Defined.

(** The shape of the body is not checked. A 2xx body that decodes to a
    number or a boolean is taken without any message and leaves
    [results] undefined; so does an object without a member [0], which
    gets the notice exactly when it has a member [length] equal to zero.
    Only the body [null] ends in an exception: [results] stays as it
    was and [error] is the message of the TypeError. *)
Theorem body_shape_is_not_checked (r : Response) (w : World) :
  ok r = true ->
  (forall data, json_body r = Resolved data ->
     (exists b, data = JBool b) \/ (exists n, data = JNum n) ->
     results (runDetection_settle (FetchResolved r) w) = Undefined /\
     error (runDetection_settle (FetchResolved r) w) = error w) /\
  (forall members, json_body r = Resolved (JObj members) ->
     own_property "0" members = None ->
     results (runDetection_settle (FetchResolved r) w) = Undefined /\
     (own_property "length" members = Some (JNum (of_Z 0)) ->
      error (runDetection_settle (FetchResolved r) w) = MSG_NO_TARGET) /\
     (own_property "length" members = None ->
      error (runDetection_settle (FetchResolved r) w) = error w)) /\
  (json_body r = Resolved JNull ->
     results (runDetection_settle (FetchResolved r) w) = results w /\
     error (runDetection_settle (FetchResolved r) w) = message TYPE_ERROR_NULL).
Proof.
  intros Hok. repeat apply conj.
  - intros data Hj Hscalar. unfold runDetection_settle.
    rewrite (receive_ok_json r data Hok Hj).
    destruct Hscalar as [[b ->] | [n ->]]; split; reflexivity.
  - intros members Hj Hzero. unfold runDetection_settle.
    rewrite (receive_ok_json r _ Hok Hj). unfold assign_results.
    cbn [index0 length_of]. rewrite Hzero. cbn [of_option].
    split; [destruct (strict_eq_zero _); reflexivity|]. split.
    + intros Hlen. rewrite Hlen. reflexivity.
    + intros Hlen. rewrite Hlen. reflexivity.
  - intros Hj. unfold runDetection_settle.
    rewrite (receive_ok_json r _ Hok Hj). split; reflexivity.
Qed.

(** The body [{"length": 0}], and the body [null]. *)
Lemma body_shape_is_not_checked_witness :
  results (runDetection_settle
             (ok_response (JObj [("length", JNum (of_Z 0))])) page_selected) = Undefined /\
  error (runDetection_settle
           (ok_response (JObj [("length", JNum (of_Z 0))])) page_selected) = MSG_NO_TARGET /\
  error (runDetection_settle (ok_response JNull) page_selected) = message TYPE_ERROR_NULL.
Proof.
  destruct (body_shape_is_not_checked
              {| status := 200; statusText := "OK"; text := Resolved "";
                 json_body := Resolved (JObj [("length", JNum (of_Z 0))]) |}
              page_selected eq_refl) as (_ & Hobject & _).
  destruct (body_shape_is_not_checked
              {| status := 200; statusText := "OK"; text := Resolved "";
                 json_body := Resolved JNull |}
              page_selected eq_refl) as (_ & _ & Hnull).
  destruct (Hobject [("length", JNum (of_Z 0))] eq_refl eq_refl) as (Hr & He & _).
  destruct (Hnull eq_refl) as (_ & Hmsg).
  split; [exact Hr|]. split; [now apply He | exact Hmsg].
Defined.

(** ** A storage that refuses writes *)

Lemma Quota_addDomainToList_stored (w : World) :
  Quota.addDomainToList Stored w = (addDomainToList w, None).
Proof. unfold Quota.addDomainToList, addDomainToList. case_decide; reflexivity. Qed.

(** With its write accepted a call is the call of the first model. *)
Lemma Quota_runDetection_begin_stored (w : World) :
  Quota.runDetection_begin Stored w =
    match runDetection_begin w with
    | Returned w' => Quota.Returned w'
    | Awaiting w' => Quota.Awaiting w'
    end.
Proof.
  unfold Quota.runDetection_begin, runDetection_begin.
  cbn [file set_invocations]. destruct (file w) as [f|]; [|reflexivity].
  rewrite Quota_addDomainToList_stored. cbv zeta. case_decide; reflexivity.
Qed.

Lemma Quota_world_of_stored (w : World) :
  Quota.world_of (Quota.runDetection_begin Stored w) = world_of (runDetection_begin w).
Proof.
  rewrite Quota_runDetection_begin_stored. now destruct (runDetection_begin w).
Qed.

Lemma Quota_flush_watchers_stored (old new : World) :
  Quota.flush_watchers Stored old new = flush_watchers old new.
Proof.
  unfold Quota.flush_watchers, flush_watchers,
    Quota.watch_imageUrl_threshold, watch_imageUrl_threshold.
  change (Quota.watch_serviceDomain Stored new) with (watch_serviceDomain new).
  repeat case_decide; try reflexivity; apply Quota_world_of_stored.
Qed.

Lemma Quota_handle_stored (e : Event) (w : World) :
  Quota.handle Stored e w = handle e w.
Proof.
  unfold Quota.handle, handle. rewrite Quota_flush_watchers_stored. f_equal.
  destruct e; try reflexivity; apply Quota_world_of_stored.
Qed.

Lemma Quota_mounted_stored (storage : Storage) :
  Quota.mounted Stored storage = mounted storage.
Proof.
  unfold Quota.mounted, mounted.
  change (Quota.watch_imageUrl_threshold Stored (initial storage)) with (initial storage).
  change (watch_imageUrl_threshold (initial storage)) with (initial storage).
  apply Quota_flush_watchers_stored.
Qed.

(** The sessions of the first model are those reached with every write
    accepted. *)
Lemma Quota_reachable_accepted (w : World) :
  Quota.reachable accepted w <-> reachable w.
Proof.
  split.
  - induction 1 as [wr storage Hwr | w wr e _ IH Hwr Hen]; unfold accepted in Hwr; subst wr.
    + rewrite Quota_mounted_stored. apply reachable_mounted.
    + rewrite Quota_handle_stored. now apply reachable_step.
  - induction 1 as [storage | w e _ IH Hen].
    + rewrite <- Quota_mounted_stored. now apply Quota.reachable_mounted.
    + rewrite <- Quota_handle_stored. now apply Quota.reachable_step.
Qed.

(** A call whose write is accepted, or that has nothing to write, is
    the call of the first model. *)
Lemma Quota_runDetection_begin_quiet (wr : write) (w : World) :
  wr = Stored \/ ~ (serviceDomain w ≠ "" ∧ serviceDomain w ∉ domainList w) ->
  Quota.runDetection_begin wr w =
    match runDetection_begin w with
    | Returned w' => Quota.Returned w'
    | Awaiting w' => Quota.Awaiting w'
    end.
Proof.
  intros [-> | Hold]; [apply Quota_runDetection_begin_stored|].
  unfold Quota.runDetection_begin, runDetection_begin.
  cbn [file set_invocations]. destruct (file w) as [f|]; [|reflexivity].
  set (w1 := start_loading (set_invocations (S (invocations w)) w)).
  assert (Hq : Quota.addDomainToList wr w1 = (addDomainToList w1, None)).
  { unfold Quota.addDomainToList, addDomainToList.
    now rewrite !(decide_False (P := serviceDomain w1 ≠ "" ∧ serviceDomain w1 ∉ domainList w1)). }
  rewrite Hq. cbv zeta. case_decide; reflexivity.
Qed.

(** A call with a file and a new address whose write is refused leaves
    by the exception: the address is in the list, the spinner is up,
    nothing was sent. *)
Lemma Quota_runDetection_begin_refused (e : exn) (f : File) (w : World) :
  file w = Some f -> serviceDomain w ≠ "" -> serviceDomain w ∉ domainList w ->
  Quota.runDetection_begin (Refused e) w =
    Quota.Threw e
      (set_domainList (domainList w ++ [serviceDomain w])
         (start_loading (set_invocations (S (invocations w)) w))).
Proof.
  intros Hf Hne Hnew. unfold Quota.runDetection_begin.
  cbn [file set_invocations]. rewrite Hf.
  set (w1 := start_loading (set_invocations (S (invocations w)) w)).
  unfold Quota.addDomainToList.
  rewrite (decide_True (P := serviceDomain w1 ≠ "" ∧ serviceDomain w1 ∉ domainList w1))
    by (split; assumption).
  reflexivity.
Qed.

Lemma Quota_runDetection_begin_no_file (wr : write) (w : World) :
  file w = None ->
  Quota.runDetection_begin wr w = Quota.Returned (set_invocations (S (invocations w)) w).
Proof. intros Hf. unfold Quota.runDetection_begin. cbn [file set_invocations]. now rewrite Hf. Qed.

Lemma Quota_world_of_lift (p : progress) :
  Quota.world_of
    match p with
    | Returned w' => Quota.Returned w'
    | Awaiting w' => Quota.Awaiting w'
    end = world_of p.
Proof. now destruct p. Qed.

Lemma Quota_runDetection_begin_file (wr : write) (w : World) :
  file (Quota.world_of (Quota.runDetection_begin wr w)) = file w /\
  (file w = None ->
   isLoading (Quota.world_of (Quota.runDetection_begin wr w)) = isLoading w).
Proof.
  destruct (file w) as [f|] eqn:Hf.
  - split; [|discriminate].
    destruct (decide (serviceDomain w ≠ "" ∧ serviceDomain w ∉ domainList w))
      as [[Hne Hnew]|Hold]; [destruct wr as [|e]|].
    + rewrite Quota_world_of_stored.
      destruct (runDetection_begin_frame w) as (-> & _). exact Hf.
    + now rewrite (Quota_runDetection_begin_refused e f w Hf Hne Hnew).
    + rewrite (Quota_runDetection_begin_quiet wr w) by (right; exact Hold).
      rewrite Quota_world_of_lift.
      destruct (runDetection_begin_frame w) as (-> & _). exact Hf.
  - rewrite (Quota_runDetection_begin_no_file wr w Hf). now split.
Qed.

Lemma Quota_reachable_flag (w : World) :
  Quota.reachable any_write w -> file w = None -> isLoading w = false.
Proof.
  assert (Hwatch : forall wr x, (file x = None -> isLoading x = false) ->
            file (Quota.watch_imageUrl_threshold wr x) = None ->
            isLoading (Quota.watch_imageUrl_threshold wr x) = false).
  { intros wr x Hx. unfold Quota.watch_imageUrl_threshold. case_decide; [exact Hx|].
    destruct (Quota_runDetection_begin_file wr x) as (-> & Hl).
    intros Hnone. rewrite (Hl Hnone). now apply Hx. }
  assert (Hsd : forall wr x, file (Quota.watch_serviceDomain wr x) = file x /\
                             isLoading (Quota.watch_serviceDomain wr x) = isLoading x).
  { intros wr x. unfold Quota.watch_serviceDomain. case_decide; [|destruct wr]; now split. }
  assert (Hflush : forall wr old new, (file new = None -> isLoading new = false) ->
            file (Quota.flush_watchers wr old new) = None ->
            isLoading (Quota.flush_watchers wr old new) = false).
  { intros wr old new Hnew. unfold Quota.flush_watchers.
    destruct (decide (serviceDomain old = serviceDomain new)) as [_|_];
      case_decide; try exact Hnew; try (apply Hwatch; exact Hnew).
    - destruct (Hsd wr new) as (-> & ->). exact Hnew.
    - apply Hwatch. destruct (Hsd wr new) as (-> & ->). exact Hnew. }
  induction 1 as [wr storage _ | w wr e _ IH _ _].
  - unfold Quota.mounted.
    change (Quota.watch_imageUrl_threshold wr (initial storage)) with (initial storage).
    apply Hflush. intros _. unfold onMounted. case_decide; reflexivity.
  - unfold Quota.handle. apply Hflush.
    destruct e as [[f|] id|v|v| | |el|el|o]; cbn [Quota.handler]; try exact IH.
    + discriminate.
    + destruct (Quota_runDetection_begin_file wr w) as (-> & Hl).
      intros Hnone. rewrite (Hl Hnone). now apply IH.
    + destruct (Quota_runDetection_begin_file wr w) as (-> & Hl).
      intros Hnone. rewrite (Hl Hnone). now apply IH.
    + intros _. apply runDetection_settle_isLoading.
Qed.

Lemma Quota_reachable_any (w : World) : reachable w -> Quota.reachable any_write w.
Proof.
  induction 1 as [storage | w e _ IH Hen].
  - rewrite <- Quota_mounted_stored. now apply Quota.reachable_mounted.
  - rewrite <- Quota_handle_stored. now apply Quota.reachable_step.
Qed.

(** C6, on the code. [isLoading] is raised, and [addDomainToList]
    called, before the [try] whose [finally] lowers it. In every session,
    whatever its writes did, a call of [runDetection] that returns ends
    with the flag down, and one that waits for [fetch] ends with it down
    however [fetch] settles; but a call whose write is refused leaves by
    the exception with the flag up and nothing sent, and this happens
    whenever a file is selected and the address is new. On a page whose
    storage refuses every write, an address is typed and a file picked:
    the spinner stays, no request is in flight, and neither refresh nor
    retry can be clicked. *)
Theorem storage_refusal_leaves_isLoading_up (w : World) (wr : write) :
  Quota.reachable any_write w ->
  match Quota.runDetection_begin wr w with
  | Quota.Returned w' => isLoading w' = false
  | Quota.Awaiting w' => forall o, isLoading (runDetection_settle o w') = false
  | Quota.Threw e w' =>
      wr = Refused e /\ isLoading w' = true /\ error w' = "" /\
      network w' = network w /\ pending w' = pending w
  end /\
  (forall e f, wr = Refused e -> file w = Some f ->
     serviceDomain w ≠ "" -> serviceDomain w ∉ domainList w ->
     exists w', Quota.runDetection_begin wr w = Quota.Threw e w' /\ isLoading w' = true) /\
  (exists w0,
     Quota.run [(Refused QUOTA_EXCEEDED, DomainInput "http://10.0.0.2");
                (Refused QUOTA_EXCEEDED, FileChange (Some sample_file) "0a1b")]
       (Quota.mounted (Refused QUOTA_EXCEEDED) fresh_storage) = Some w0 /\
     isLoading w0 = true /\ pending w0 = 0 /\ network w0 = [] /\ error w0 = "" /\
     enabled RefreshClick w0 = false /\ enabled RetryClick w0 = false).
Proof.
  intros Hreach. split; [|split].
  - destruct (file w) as [f|] eqn:Hf.
    + destruct (decide (serviceDomain w ≠ "" ∧ serviceDomain w ∉ domainList w))
        as [[Hne Hnew]|Hold]; [destruct wr as [|e]|].
      * rewrite Quota_runDetection_begin_stored, (runDetection_begin_fetch w f Hf Hne).
        intros o. apply runDetection_settle_isLoading.
      * rewrite (Quota_runDetection_begin_refused e f w Hf Hne Hnew). now repeat split.
      * rewrite (Quota_runDetection_begin_quiet wr w) by (right; exact Hold).
        destruct (decide (serviceDomain w = "")) as [Hd|Hd].
        -- now rewrite (runDetection_begin_empty_domain w f Hf Hd).
        -- rewrite (runDetection_begin_fetch w f Hf Hd).
           intros o. apply runDetection_settle_isLoading.
    + rewrite (Quota_runDetection_begin_no_file wr w Hf).
      now apply (Quota_reachable_flag w Hreach).
  - intros e f -> Hf Hne Hnew. eexists.
    split; [apply (Quota_runDetection_begin_refused e f w Hf Hne Hnew) | reflexivity].
  - eexists. split; [vm_compute; reflexivity|]. repeat split.
Qed.

(** The page whose request was answered, a new address typed, and a
    click on refresh while the storage is full. *)
Lemma storage_refusal_leaves_isLoading_up_witness :
  isLoading page_new_address = false /\
  exists w', Quota.runDetection_begin (Refused QUOTA_EXCEEDED) page_new_address
             = Quota.Threw QUOTA_EXCEEDED w' /\ isLoading w' = true.
Proof.
  split; [reflexivity|].
  assert (Hreach : Quota.reachable any_write page_new_address).
  { apply (Quota.reachable_step any_write page_answered); [|exact I | reflexivity].
    apply Quota_reachable_any.
    apply (reachable_step page_selected); [reach_page_selected | reflexivity]. }
  assert (Hd : serviceDomain page_new_address = "http://10.0.0.2") by (vm_compute; reflexivity).
  assert (Hl : domainList page_new_address = [DEFAULT_DOMAIN]) by (vm_compute; reflexivity).
  apply (proj1 (proj2 (storage_refusal_leaves_isLoading_up page_new_address
                         (Refused QUOTA_EXCEEDED) Hreach))
           QUOTA_EXCEEDED sample_file eq_refl).
  - vm_compute. reflexivity.
  - rewrite Hd. discriminate.
  - rewrite Hd, Hl. apply not_elem_of_cons. split; [discriminate | apply not_elem_of_nil].
Defined.

(** As long as no write is refused, the requests in flight are among
    those sent, each request sent stems from a call of [runDetection],
    and the spinner is up only while a request is in flight. *)
Theorem spinner_needs_a_request_while_storage_accepts (w : World) :
  Quota.reachable accepted w ->
  pending w <= length (network w) /\
  length (network w) <= invocations w /\
  (isLoading w = true -> 0 < pending w /\ file w ≠ None).
Proof.
  intros Hreach. apply Quota_reachable_accepted in Hreach.
  destruct (reachable_accounting w Hreach) as (Hp & Hn & Hl & Hidle).
  repeat split; try assumption; [now apply Hl|].
  intros Hnone. destruct (Hidle Hnone) as (_ & _ & _ & _ & _ & Hfalse & _).
  congruence.
Qed.

Lemma spinner_needs_a_request_while_storage_accepts_witness :
  pending page_selected <= length (network page_selected) /\
  (isLoading page_selected = true -> 0 < pending page_selected /\ file page_selected ≠ None).
Proof.
  destruct (spinner_needs_a_request_while_storage_accepts page_selected) as (Hp & _ & Hl).
  - apply (proj2 (Quota_reachable_accepted page_selected)). reach_page_selected.
  - split; assumption.
Defined.

(** ** Reset of the previous results *)

Lemma runDetection_begin_results (w : World) :
  results (world_of (runDetection_begin w)) = results w \/
  results (world_of (runDetection_begin w)) = Json (JArr []).
Proof.
  destruct (runDetection_begin_cases w)
    as [[_ ->] | [(f & _ & _ & ->) | (f & Hf & Hd & _)]];
    [now left | now right | right].
  apply (runDetection_begin_sends w f Hf Hd).
Qed.

Lemma handle_keeps_empty_results (e : Event) (w : World) :
  ~ writes_results e -> results w = Json (JArr []) ->
  results (handle e w) = Json (JArr []).
Proof.
  intros Hkeep Hempty. rewrite handle_unfold.
  assert (Hbegin : forall x, results x = Json (JArr []) ->
                             results (world_of (runDetection_begin x)) = Json (JArr [])).
  { intros x Hx. destruct (runDetection_begin_results x) as [-> | ->]; [exact Hx | reflexivity]. }
  destruct e as [[f|] id|v|v| | |el|el|o]; try exact Hempty; try (now apply Hbegin).
  - case_decide; [reflexivity | now apply Hbegin].
  - case_decide; [exact Hempty | now apply Hbegin].
  - unfold watch_serviceDomain. repeat case_decide; exact Hempty.
  - cbn [writes_results] in Hkeep.
    destruct (thrown o) as [e|] eqn:Hthrown; [|contradiction].
    now rewrite (runDetection_settle_thrown o e w Hthrown).
Qed.

Lemma run_keeps_empty_results (es : list Event) (w w' : World) :
  Forall (fun e => ~ writes_results e) es ->
  results w = Json (JArr []) -> run es w = Some w' ->
  results w' = Json (JArr []).
Proof.
  revert w. induction es as [|e es IH]; intros w Hes Hempty Hrun.
  - cbn in Hrun. now injection Hrun as <-.
  - cbn [run] in Hrun. destruct (enabled e w); [|discriminate].
    apply Forall_cons in Hes as [He Hes].
    apply (IH (handle e w)); [exact Hes | now apply handle_keeps_empty_results | exact Hrun].
Qed.

(** C9 as stated does not hold: a file is picked, the slider is moved
    while the first request is in flight, one response brings a
    detection and the other request fails; at that exit by an exception
    [results] holds the detection. *)
Lemma overlapping_failure_keeps_results :
  exists w,
    run [ThresholdInput (of_Z 1);
         FetchSettled (ok_response (JArr [JArr [JStr "early"]]));
         FetchSettled (FetchRejected (Error "Failed to fetch"))] page_selected = Some w /\
    file w = Some sample_file /\
    error w = "Failed to fetch" /\
    results w = Json (JArr [JStr "early"]) /\
    results w ≠ Json (JArr []).
Proof.
  eexists. split; [vm_compute; reflexivity|].
  split; [reflexivity|]. split; [reflexivity|]. split; [reflexivity | discriminate].
Qed.

(** C9, amended. With a file selected, [runDetection] empties [results]
    and [error] before anything else: either it stops at the empty
    address with no request, or the request leaves from a state where
    both are empty. An exit by an exception (a rejected [fetch], a
    status outside 200-299, a body that does not read or parse) never
    writes [results]: a call with nothing else in between ends with
    [results] empty, and so does any call up to whose exit no response
    was taken without an exception, whatever other events came in
    between. *)
Theorem runDetection_resets_results (w : World) (f : File) :
  file w = Some f ->
  ((serviceDomain w = "" /\ exists w', runDetection_begin w = Returned w' /\
      results w' = Json (JArr []) /\ network w' = network w) \/
   (exists req w0, runDetection_begin w = Awaiting (fetch req w0) /\
      results w0 = Json (JArr []) /\ error w0 = "" /\ network w0 = network w)) /\
  (forall o e, thrown o = Some e ->
     results (runDetection o w) = Json (JArr []) /\
     forall w0, results (runDetection_settle o w0) = results w0) /\
  (forall es w',
     Forall (fun e => ~ writes_results e) es ->
     run es (world_of (runDetection_begin w)) = Some w' ->
     results w' = Json (JArr [])) /\
  (forall e, thrown (FetchRejected e) = Some e) /\
  (forall r, ok r = false -> thrown (FetchResolved r) ≠ None) /\
  (forall r e, ok r = true -> json_body r = Rejected e ->
     thrown (FetchResolved r) = Some e).
Proof.
  intros Hf.
  set (w1 := start_loading (set_invocations (S (invocations w)) w)).
  destruct (addDomainToList_frame w1) as (_ & _ & _ & _ & En & Er & Ee).
  assert (Hbegin : results (world_of (runDetection_begin w)) = Json (JArr [])).
  { destruct (decide (serviceDomain w = "")) as [Hd|Hd].
    - now rewrite (runDetection_begin_empty_domain w f Hf Hd).
    - rewrite (runDetection_begin_fetch w f Hf Hd). exact Er. }
  repeat apply conj.
  - destruct (decide (serviceDomain w = "")) as [Hd|Hd].
    + left. split; [exact Hd|]. eexists. split.
      * apply (runDetection_begin_empty_domain w f Hf Hd).
      * now split.
    + right. do 2 eexists. split.
      * apply (runDetection_begin_fetch w f Hf Hd).
      * fold w1. now rewrite En, Er, Ee.
  - intros o e Hthrown. split.
    + unfold runDetection.
      destruct (runDetection_begin w) as [w'|w']; [exact Hbegin|].
      rewrite (runDetection_settle_thrown o e w' Hthrown). exact Hbegin.
    + intros w0. now rewrite (runDetection_settle_thrown o e w0 Hthrown).
  - intros es w' Hes Hrun. now apply (run_keeps_empty_results es _ w' Hes Hbegin).
  - reflexivity.
  - intros r Hok. unfold thrown. simpl. rewrite Hok.
    destruct (text r); discriminate.
  - intros r e Hok Hj. unfold thrown. simpl. now rewrite Hok, Hj.
Qed.

(** C9 at work: on the page with a file the slider is moved, and both
    requests fail. *)
Lemma runDetection_resets_results_witness :
  exists w',
    run [FetchSettled (FetchRejected (Error "Failed to fetch"));
         FetchSettled (FetchRejected (Error "Failed to fetch"))]
        (world_of (runDetection_begin (set_threshold (of_Z 1) page_selected))) = Some w' /\
    results w' = Json (JArr []).
Proof.
  eexists. split; [vm_compute; reflexivity|].
  destruct (runDetection_resets_results (set_threshold (of_Z 1) page_selected)
              sample_file eq_refl) as (_ & _ & Htrace & _).
  apply (Htrace [FetchSettled (FetchRejected (Error "Failed to fetch"));
                 FetchSettled (FetchRejected (Error "Failed to fetch"))]).
  - repeat constructor; cbn; discriminate.
  - vm_compute. reflexivity.
Defined.
